(** * markdownd: the request handler of [main.go], embedded in Rocq

    The development follows the layout of the Go program.  The packages the
    handler calls into ([strings], [path/filepath], [net/http], [os]) are
    modelled first, each in a module of its own name; then come the
    handler [ServeHTTP], the symlink guard [fileisgood] and
    [prepareDirectory], translated statement by statement.

    Go strings are byte sequences, and so are the strings of the Standard
    Library ([string] is a list of 8-bit [ascii]); a [[]byte] buffer is a
    [string] as well. *)

From Stdlib Require Import String Ascii List Bool Arith Lia.
Import ListNotations.
Open Scope string_scope.

(** ** Go's [(value, error)] results *)

Inductive result (A : Type) : Type :=
| Ok (a : A)
| Err (msg : string).
Arguments Ok {A} a.
Arguments Err {A} msg.

(** ** Package [strings] *)

Module strings.

(** [strings.HasPrefix(s, prefix)] *)
Definition HasPrefix (s p : string) : bool := String.prefix p s.

(** [strings.HasSuffix(s, suffix)]:
    [len(s) >= len(suffix) && s[len(s)-len(suffix):] == suffix] *)
Definition HasSuffix (s suf : string) : bool :=
  (String.length suf <=? String.length s)%nat
  && (substring (String.length s - String.length suf) (String.length suf) s
      =? suf).

(** [strings.TrimSuffix(s, suffix)]: [s[:len(s)-len(suffix)]] when [s]
    ends in [suffix], [s] otherwise. *)
Definition TrimSuffix (s suf : string) : string :=
  if HasSuffix s suf
  then substring 0 (String.length s - String.length suf) s
  else s.

(** [strings.Contains(s, substr)]: [substr] occurs at some offset of [s]. *)
Fixpoint Contains (s sub : string) : bool :=
  String.prefix sub s
  || match s with
     | EmptyString => false
     | String _ t => Contains t sub
     end.

(** [strings.Split(s, "/")]: the elements between the slashes; never
    empty, [Split("", "/")] is [[""]]. *)
Fixpoint SplitSlash (s : string) : list string :=
  match s with
  | EmptyString => [""]
  | String c t =>
      if Ascii.eqb c "/" then "" :: SplitSlash t
      else match SplitSlash t with
           | e :: es => String c e :: es
           | [] => [String c ""]
           end
  end.

(** [strings.Join(elems, "/")] *)
Definition JoinSlash (l : list string) : string := String.concat "/" l.

End strings.

(** ** Package [path/filepath] (Unix)

    [Clean] is the lexical normalisation of the Go library: runs of
    separators count as one, [.] elements are dropped, an inner [..]
    removes the element before it, a [..] at the start of a rooted path is
    dropped, and the empty result is [.].  The library works on a byte
    buffer; the model works on the list of path elements, with the kept
    elements as a stack (last kept element first). *)

Module filepath.

(** [filepath.IsAbs(path)] on Unix: the path starts with a slash. *)
Definition IsAbs (path : string) : bool := strings.HasPrefix path "/".

(** One element of the input against the elements kept so far. *)
Definition cleanStep (rooted : bool) (kept : list string) (e : string)
  : list string :=
  if (e =? "") || (e =? ".") then kept
  else if e =? ".." then
    match kept with
    | k :: ks => if k =? ".." then e :: kept else ks
    | [] => if rooted then [] else [e]
    end
  else e :: kept.

Definition cleanElems (rooted : bool) (l : list string) : list string :=
  rev (fold_left (cleanStep rooted) l []).

Definition Clean (path : string) : string :=
  if path =? "" then "."
  else
    let rooted := IsAbs path in
    let out := strings.JoinSlash (cleanElems rooted (strings.SplitSlash path)) in
    if rooted then "/" ++ out
    else if out =? "" then "." else out.

(** [filepath.Join(a, b)]: the non-empty elements joined by a slash and
    cleaned; the empty string when both are empty. *)
Definition Join (a b : string) : string :=
  if negb (a =? "") then Clean (a ++ "/" ++ b)
  else if negb (b =? "") then Clean b
  else "".

(** [filepath.Abs(path)], given what [os.Getwd] answers. *)
Definition Abs (getwd : result string) (path : string) : result string :=
  if IsAbs path then Ok (Clean path)
  else match getwd with
       | Err e => Err e
       | Ok wd => Ok (Join wd path)
       end.

End filepath.

(** ** Package [net/http]: the response writer

    A [ResponseWriter] is observed through its header map, the status
    written by [WriteHeader] (or implied by the first [Write]) and the body
    bytes.  The header map keeps every value added under a key, in the
    order of the calls. *)

Module http.

Record ResponseWriter : Type := mkResponse {
  Header : list (string * string);
  Status : option nat;
  Body : string
}.

(** The writer the server hands to the handler. *)
Definition fresh : ResponseWriter := mkResponse [] None "".

(** [w.Header().Add(key, value)] *)
Definition HeaderAdd (k v : string) (w : ResponseWriter) : ResponseWriter :=
  mkResponse (Header w ++ [(k, v)])%list (Status w) (Body w).

(** [w.Header().Set(key, value)]: replaces what the key held. *)
Definition HeaderSet (k v : string) (w : ResponseWriter) : ResponseWriter :=
  mkResponse
    (filter (fun kv => negb (fst kv =? k)) (Header w) ++ [(k, v)])%list
    (Status w) (Body w).

(** [w.Header().Get(key)]: the first value of the key. *)
Definition HeaderGet (k : string) (w : ResponseWriter) : option string :=
  match filter (fun kv => fst kv =? k) (Header w) with
  | kv :: _ => Some (snd kv)
  | [] => None
  end.

(** [w.WriteHeader(code)]: only the first call counts. *)
Definition WriteHeader (code : nat) (w : ResponseWriter) : ResponseWriter :=
  match Status w with
  | Some _ => w
  | None => mkResponse (Header w) (Some code) (Body w)
  end.

(** [w.Write(b)]: implies [WriteHeader(200)] when no status was written. *)
Definition Write (b : string) (w : ResponseWriter) : ResponseWriter :=
  let w := WriteHeader 200 w in
  mkResponse (Header w) (Status w) (Body w ++ b).

Definition newline : string := String (ascii_of_nat 10) "".

(** [http.Error(w, msg, code)] *)
Definition Error (msg : string) (code : nat) (w : ResponseWriter)
  : ResponseWriter :=
  let w := HeaderSet "Content-Type" "text/plain; charset=utf-8" w in
  let w := HeaderSet "X-Content-Type-Options" "nosniff" w in
  let w := WriteHeader code w in
  Write (msg ++ newline) w.

(** [http.NotFound(w, r)] is [Error(w, "404 page not found", 404)]. *)
Definition NotFound (w : ResponseWriter) : ResponseWriter :=
  Error "404 page not found" 404 w.

(** The fields of [*http.Request] the handler looks at. *)
Record Request : Type := mkRequest {
  Method : string;
  Path : string;        (* r.URL.Path *)
  RawQuery : string;    (* r.URL.RawQuery *)
  RemoteAddr : string;
  UserAgent : string
}.

End http.

Import http.

(** ** What one request sees of its surroundings

    The flag [-index], the request id drawn by [rfid], the answers of the
    operating system to the calls of package [os], [ioutil] and
    [filepath], and the three library functions the handler delegates to.
    The file system is the same for the whole of one request. *)

Record Env : Type := mkEnv {
  indexPage : string;                         (* *indexPage *)
  rfid : string;                              (* strconv.Itoa(rand.Int()) *)
  Getwd : result string;                      (* os.Getwd() *)
  Open : string -> result unit;               (* os.Open(name) *)
  EvalSymlinks : string -> result string;     (* filepath.EvalSymlinks(path) *)
  ReadFile : string -> result string;         (* ioutil.ReadFile(name) *)
  DetectContentType : string -> string;       (* http.DetectContentType(b) *)
  MarkdownCommon : string -> string;          (* blackfriday.MarkdownCommon(b) *)
  ServeFile : ResponseWriter -> Request -> string -> ResponseWriter
                                              (* http.ServeFile(w, r, name) *)
}.

(** ** Observable events of a run: log lines and system calls *)

Inductive logline : Type :=
| LogBadMethod (remote method path agent : string)      (* line 143 *)
| LogBadPath (remote method path agent : string)        (* line 150 *)
| LogRequest (id remote method path abs : string)       (* line 182 *)
| LogClosed (id : string)                               (* line 185 *)
| LogAbsError (id err : string)                         (* line 190 *)
| LogSubstituted (id abs trymd : string)                (* line 200 *)
| Log404 (id abs : string)                              (* line 211 *)
| LogOpenError (id err abs : string)                    (* line 217 *)
| LogSymlink (id abs : string)                          (* line 224 *)
| LogBadPrefix (id abs root : string)                   (* line 233 *)
| LogReadError (id abs : string)                        (* line 241 *)
| LogRawHtml (id abs : string)                          (* line 252 *)
| LogRawMarkdown (id abs : string)                      (* line 261 *)
| LogMarkdown (id abs : string)                         (* line 265 *)
| LogServing (id ct abs : string)                       (* line 271 *)
| Println (msg : string).                               (* lines 289, 295 *)

Inductive event : Type :=
| Log (l : logline)
| SysGetwd
| SysOpen (name : string)
| SysEvalSymlinks (path : string)
| SysReadFile (name : string)
| SysServeFile (name : string).

(** An event that touches the file system. *)
Definition is_fs (e : event) : bool :=
  match e with
  | Log _ => false
  | _ => true
  end.

(** An event that reads the contents of a file. *)
Definition reads (e : event) : option string :=
  match e with
  | SysReadFile p | SysServeFile p => Some p
  | _ => None
  end.

(** ** The monad of Go function bodies

    A function body runs over the response writer and the event trace.  A
    statement of a function with results of type [R] either goes on to the
    next statement with a value, or executes [return r], or panics. *)

Record state : Type := mkState {
  resp : ResponseWriter;
  trace : list event
}.

Inductive step (R A : Type) : Type :=
| Continue (a : A) (st : state)
| Returned (r : R) (st : state)
| Panicked (st : state).
Arguments Continue {R A} a st.
Arguments Returned {R A} r st.
Arguments Panicked {R A} st.

Definition M (R A : Type) : Type := state -> step R A.

Definition ret {R A} (a : A) : M R A := fun st => Continue a st.

Definition bind {R A B} (m : M R A) (k : A -> M R B) : M R B :=
  fun st =>
    match m st with
    | Continue a st' => k a st'
    | Returned r st' => Returned r st'
    | Panicked st' => Panicked st'
    end.

Notation "x <- m ;; k" := (bind m (fun x => k))
  (at level 61, m at next level, right associativity).
Notation "m ;; k" := (bind m (fun _ => k))
  (at level 61, right associativity).

(** [return r] *)
Definition return_ {R A} (r : R) : M R A := fun st => Returned r st.

(** A run-time panic. *)
Definition panic {R A} : M R A := fun st => Panicked st.

(** A call [f(args)] inside another body: the callee's [return r] is the
    value of the call, its panic is the caller's. *)
Definition call {R R'} (body : M R R) : M R' R :=
  fun st =>
    match body st with
    | Continue r st' => Continue r st'
    | Returned r st' => Continue r st'
    | Panicked st' => Panicked st'
    end.

Definition emit {R} (e : event) : M R unit :=
  fun st => Continue tt (mkState (resp st) (trace st ++ [e])%list).

Definition write {R} (f : ResponseWriter -> ResponseWriter) : M R unit :=
  fun st => Continue tt (mkState (f (resp st)) (trace st)).

(** [if c { body }] *)
Definition when {R} (c : bool) (body : M R unit) : M R unit :=
  if c then body else ret tt.

(** [defer d] followed by the rest of the function body: [d] runs when the
    body is left, however it is left. *)
Definition defer {R A} (d : M R unit) (body : M R A) : M R A :=
  fun st =>
    match body st with
    | Continue a st' => Continue a (match d st' with
                                    | Continue _ s | Returned _ s | Panicked s => s
                                    end)
    | Returned r st' => Returned r (match d st' with
                                    | Continue _ s | Returned _ s | Panicked s => s
                                    end)
    | Panicked st' => Panicked (match d st' with
                                | Continue _ s | Returned _ s | Panicked s => s
                                end)
    end.

(** The state in which a body was left, and whether by a panic. *)
Definition final {R A} (s : step R A) : state :=
  match s with
  | Continue _ st | Returned _ st | Panicked st => st
  end.

Definition panicked {R A} (s : step R A) : bool :=
  match s with
  | Panicked _ => true
  | _ => false
  end.

(** ** System and library calls, each leaving its event *)

Section Calls.
Variable env : Env.
Variable R : Type.

Definition log_Println (l : logline) : M R unit := emit (Log l).

Definition os_Getwd : M R (result string) :=
  emit SysGetwd ;; ret (Getwd env).

Definition os_Open (name : string) : M R (result unit) :=
  emit (SysOpen name) ;; ret (Open env name).

Definition filepath_EvalSymlinks (path : string) : M R (result string) :=
  emit (SysEvalSymlinks path) ;; ret (EvalSymlinks env path).

Definition ioutil_ReadFile (name : string) : M R (result string) :=
  emit (SysReadFile name) ;; ret (ReadFile env name).

Definition http_ServeFile (r : Request) (name : string) : M R unit :=
  emit (SysServeFile name) ;; write (fun w => ServeFile env w r name).

(** [filepath.Abs(path)]: [os.Getwd] is asked only for a relative path. *)
Definition filepath_Abs (path : string) : M R (result string) :=
  if filepath.IsAbs path then ret (filepath.Abs (Getwd env) path)
  else wd <- os_Getwd ;; ret (filepath.Abs wd path).

(** [s[1:]]: panics on the empty string. *)
Definition slice_from_1 (s : string) : M R string :=
  match s with
  | EmptyString => panic
  | String _ t => ret t
  end.

End Calls.

Arguments log_Println {R} l.
Arguments os_Getwd env {R}.
Arguments os_Open env {R} name.
Arguments filepath_EvalSymlinks env {R} path.
Arguments ioutil_ReadFile env {R} name.
Arguments http_ServeFile env {R} r name.
Arguments filepath_Abs env {R} path.
Arguments slice_from_1 {R} s.

(** ** [main.go] *)

Record Server : Type := mkServer {
  RootString : string
}.

Definition version : string := "0.0.6".
Definition serverheader : string := "markdownd/" ++ version.

(** [fileisgood] (lines 276-299): false for a symlink. *)
Definition fileisgood (env : Env) (abs : string) : M bool bool :=
  when (abs =? "") (return_ false) ;;
  a <- (if negb (filepath.IsAbs abs)
        then filepath_Abs env abs
        else ret (Ok abs)) ;;
  match a with
  | Err err => log_Println (Println err) ;; return_ false
  | Ok abs =>
      rp <- filepath_EvalSymlinks env abs ;;
      match rp with
      | Err err => log_Println (Println err) ;; return_ false
      | Ok realpath => return_ (realpath =? abs)
      end
  end.

(** [ServeHTTP] (lines 138-274). *)
Definition ServeHTTP (env : Env) (s : Server) (r : Request) : M unit unit :=
  (* r.Body.Close() *)
  (* all we want is GET *)
  when (negb (Method r =? "GET")) (
    log_Println (LogBadMethod (RemoteAddr r) (Method r) (Path r) (UserAgent r)) ;;
    write NotFound ;;
    return_ tt) ;;
  (* deny requests containing '../' *)
  when (strings.Contains (Path r) "../") (
    log_Println (LogBadPath (RemoteAddr r) (Method r) (Path r) (UserAgent r)) ;;
    write NotFound ;;
    return_ tt) ;;
  write (HeaderAdd "Server" serverheader) ;;
  write (HeaderAdd "X-Frame-Options" "DENY") ;;
  let requestid := rfid env in
  abs <- slice_from_1 (Path r) ;;
  let abs := if abs =? "" then indexPage env else abs in
  let abs := if strings.HasSuffix abs "/" then abs ++ "index.md" else abs in
  let abs := RootString s ++ abs in
  log_Println (LogRequest requestid (RemoteAddr r) (Method r) (Path r) abs) ;;
  defer (log_Println (LogClosed requestid)) (
    a <- filepath_Abs env abs ;;
    match a with
    | Err err =>
        log_Println (LogAbsError requestid err) ;;
        write NotFound ;;
        return_ tt
    | Ok abs =>
        (* .html suffix *)
        abs <- (if strings.HasSuffix abs ".html" then
                  let trymd := strings.TrimSuffix abs ".html" ++ ".md" in
                  o <- os_Open env trymd ;;
                  match o with
                  | Ok _ =>
                      log_Println (LogSubstituted requestid abs trymd) ;;
                      ret trymd
                  | Err _ => ret abs
                  end
                else ret abs) ;;
        (* check if exists, or give 404 *)
        o <- os_Open env abs ;;
        match o with
        | Err err =>
            when (strings.Contains err "no such file") (
              log_Println (Log404 requestid abs) ;;
              write NotFound ;;
              return_ tt) ;;
            log_Println (LogOpenError requestid err abs) ;;
            write NotFound ;;
            return_ tt
        | Ok _ =>
            (* check if symlink *)
            good <- call (fileisgood env abs) ;;
            when (negb good) (
              log_Println (LogSymlink requestid abs) ;;
              write NotFound ;;
              return_ tt) ;;
            when (negb (strings.HasPrefix abs (RootString s))) (
              log_Println (LogBadPrefix requestid abs (RootString s)) ;;
              write NotFound ;;
              return_ tt) ;;
            (* read bytes *)
            b <- ioutil_ReadFile env abs ;;
            match b with
            | Err _ =>
                log_Println (LogReadError requestid abs) ;;
                write NotFound ;;
                return_ tt
            | Ok b =>
                let ct := DetectContentType env b in
                (* serve raw html if exists *)
                when (strings.HasSuffix abs ".html"
                      || strings.HasPrefix ct "text/html") (
                  log_Println (LogRawHtml requestid abs) ;;
                  write (HeaderAdd "Content-Type" "text/html") ;;
                  write (Write b) ;;
                  return_ tt) ;;
                (* probably markdown *)
                when (strings.HasSuffix abs ".md"
                      && strings.HasPrefix ct "text/plain") (
                  when (strings.Contains (RawQuery r) "raw") (
                    log_Println (LogRawMarkdown requestid abs) ;;
                    write (Write b) ;;
                    return_ tt) ;;
                  log_Println (LogMarkdown requestid abs) ;;
                  write (Write (MarkdownCommon env b)) ;;
                  return_ tt) ;;
                (* fallthrough with http.ServeFile *)
                log_Println (LogServing requestid ct abs) ;;
                http_ServeFile env r abs
            end
        end
    end).

(** [prepareDirectory] (lines 301-320); [Err] stands for [os.Exit(111)]. *)
Definition prepareDirectory (env : Env) (dir : string) : result string :=
  let dir := if dir =? "." then dir ++ "/" else dir in
  match filepath.Abs (Getwd env) dir with
  | Err err => Err err
  | Ok dir =>
      (* add trailing slash *)
      Ok (if negb (strings.HasSuffix dir "/") then dir ++ "/" else dir)
  end.

(** One request served from scratch: the handler run on the writer the
    server hands over, with an empty trace. *)
Definition serve (env : Env) (s : Server) (r : Request) : step unit unit :=
  ServeHTTP env s r (mkState fresh []).

Definition response (env : Env) (s : Server) (r : Request) : ResponseWriter :=
  resp (final (serve env s r)).

Definition events (env : Env) (s : Server) (r : Request) : list event :=
  trace (final (serve env s r)).

(** ** Views of the handler used to state its properties

    [requested] is the file name lines 166-179 build from the URL path
    ([None] where the slice expression panics); [resolved] is the path
    lines 187-203 leave in [abs], the one every later check, read and
    write is about ([None] where the handler has given up before). *)

Definition requested (env : Env) (s : Server) (r : Request) : option string :=
  match Path r with
  | EmptyString => None
  | String _ abs =>
      let abs := if abs =? "" then indexPage env else abs in
      let abs := if strings.HasSuffix abs "/" then abs ++ "index.md" else abs in
      Some (RootString s ++ abs)
  end.

Definition substituted (env : Env) (abs : string) : string :=
  if strings.HasSuffix abs ".html" then
    let trymd := strings.TrimSuffix abs ".html" ++ ".md" in
    match Open env trymd with
    | Ok _ => trymd
    | Err _ => abs
    end
  else abs.

Definition resolved (env : Env) (s : Server) (r : Request) : option string :=
  match requested env s r with
  | None => None
  | Some abs =>
      match filepath.Abs (Getwd env) abs with
      | Err _ => None
      | Ok abs => Some (substituted env abs)
      end
  end.

(** The value [fileisgood] returns. *)
Definition isgood (env : Env) (abs : string) : bool :=
  match call (R':=unit) (fileisgood env abs) (mkState fresh []) with
  | Continue b _ => b
  | _ => false
  end.

(** The not-found response: status 404 and the fixed body. *)
Definition is_not_found (w : ResponseWriter) : Prop :=
  Status w = Some 404 /\ Body w = "404 page not found" ++ newline.

(** The events of a call of [fileisgood] and of [filepath.Abs]. *)
Definition good_events (env : Env) (abs : string) : list event :=
  trace (final (fileisgood env abs (mkState fresh []))).

Definition abs_events (path : string) : list event :=
  if filepath.IsAbs path then [] else [SysGetwd].

(** The path [fileisgood] compares the real path with (lines 283-286). *)
Definition canonical (env : Env) (abs : string) : result string :=
  if filepath.IsAbs abs then Ok abs else filepath.Abs (Getwd env) abs.

(** The header map after lines 157-161. *)
Definition own_headers : list (string * string) :=
  [("Server", serverheader); ("X-Frame-Options", "DENY")].

(** No event of the trace reads the contents of a file. *)
Definition no_contents_read (t : list event) : Prop :=
  forall e, In e t -> reads e = None.

(** The log lines of the four branches that serve a file. *)
Definition serves (l : logline) : bool :=
  match l with
  | LogRawHtml _ _ | LogRawMarkdown _ _ | LogMarkdown _ _
  | LogServing _ _ _ => true
  | _ => false
  end.


(** The log lines that give the reason of a not-found response. *)
Definition rejection (l : logline) : bool :=
  match l with
  | LogBadMethod _ _ _ _ | LogBadPath _ _ _ _ | LogAbsError _ _
  | Log404 _ _ | LogOpenError _ _ _ | LogSymlink _ _ | LogBadPrefix _ _ _
  | LogReadError _ _ => true
  | _ => false
  end.


(** The last byte of a string. *)
Fixpoint last_byte (s : string) : option ascii :=
  match s with
  | EmptyString => None
  | String c EmptyString => Some c
  | String _ t => last_byte t
  end.

(** ** A small site to run the handler on

    The tree under [/srv/www], with a directory [docs], a page that has
    both an [.html] and an [.md] file, and [out], a symbolic link to
    [/etc].  Every entry gives the path, its real path and what is there. *)

Module Sample.

Inductive node : Type :=
| Dir
| File (content : string).

Definition tree : list (string * (string * node)) :=
  [ ("/", ("/", Dir));
    ("/etc", ("/etc", Dir));
    ("/etc/passwd", ("/etc/passwd", File "root:x:0:0:root:/root:/bin/sh"));
    ("/srv", ("/srv", Dir));
    ("/srv/www", ("/srv/www", Dir));
    ("/srv/www/index.md", ("/srv/www/index.md", File "# Home"));
    ("/srv/www/home.md", ("/srv/www/home.md", File "# Start here"));
    ("/srv/www/doc.md", ("/srv/www/doc.md", File "Some *text*."));
    ("/srv/www/page.html", ("/srv/www/page.html", File "<html>old</html>"));
    ("/srv/www/page.md", ("/srv/www/page.md", File "# Page"));
    ("/srv/www/style.css", ("/srv/www/style.css", File "body { margin: 0 }"));
    ("/srv/www/docs", ("/srv/www/docs", Dir));
    ("/srv/www/docs/index.md", ("/srv/www/docs/index.md", File "# Docs"));
    ("/srv/www/docs/home.md", ("/srv/www/docs/home.md", File "# Docs home"));
    ("/srv/www/out", ("/etc", Dir));
    ("/srv/www/out/passwd",
     ("/etc/passwd", File "root:x:0:0:root:/root:/bin/sh")) ].

Definition symlinks : list string := ["/srv/www/out"].

Definition lookup (p : string) : option (string * node) :=
  match find (fun e => fst e =? p) tree with
  | Some e => Some (snd e)
  | None => None
  end.

Definition isSymlink (p : string) : bool := existsb (String.eqb p) symlinks.

Definition Open (p : string) : result unit :=
  match lookup p with
  | Some _ => Ok tt
  | None => Err ("open " ++ p ++ ": no such file or directory")
  end.

Definition EvalSymlinks (p : string) : result string :=
  match lookup p with
  | Some (real, _) => Ok real
  | None => Err ("lstat " ++ p ++ ": no such file or directory")
  end.

Definition ReadFile (p : string) : result string :=
  match lookup p with
  | Some (_, File c) => Ok c
  | Some (_, Dir) => Err ("read " ++ p ++ ": is a directory")
  | None => Err ("open " ++ p ++ ": no such file or directory")
  end.

(** Stand-ins for the three library functions: enough of content
    sniffing to tell markup from text, a renderer that wraps its input,
    and a static file server that adds a content type. *)
Definition DetectContentType (b : string) : string :=
  if strings.HasPrefix b "<" then "text/html; charset=utf-8"
  else "text/plain; charset=utf-8".

Definition MarkdownCommon (b : string) : string :=
  "<p>" ++ b ++ "</p>" ++ newline.

Definition ServeFile (w : ResponseWriter) (r : Request) (name : string)
  : ResponseWriter :=
  match ReadFile name with
  | Ok c => Write c (HeaderSet "Content-Type" "text/css; charset=utf-8" w)
  | Err _ => NotFound w
  end.

Definition env (index : string) : Env :=
  mkEnv index "5577006791947779410" (Ok "/home/md")
        Open EvalSymlinks ReadFile
        DetectContentType MarkdownCommon ServeFile.

Definition srv : Server := mkServer "/srv/www/".

Definition request (method path query : string) : Request :=
  mkRequest method path query "192.0.2.7:51034" "curl/8.5.0".

End Sample.

(** The sample site with [page.md] unreadable by the server. *)
Definition locked_env : Env :=
  mkEnv "index.md" "8674665223082153551" (Ok "/home/md")
        (fun p => if p =? "/srv/www/page.md"
                  then Err "open /srv/www/page.md: permission denied"
                  else Sample.Open p)
        Sample.EvalSymlinks Sample.ReadFile
        Sample.DetectContentType Sample.MarkdownCommon Sample.ServeFile.

(** ** Proof automation: running the handler symbolically *)

Create Rewrite HintDb run.

Ltac run :=
  cbv [serve response events ServeHTTP fileisgood isgood call defer bind when
       ret return_ panic emit write log_Println os_Getwd os_Open
       filepath_EvalSymlinks ioutil_ReadFile http_ServeFile filepath_Abs
       slice_from_1 final panicked resp trace good_events].

(** The handler unfolded, with the calls of [fileisgood] and
    [filepath.Abs] kept for their run lemmas. *)
Ltac run_handler :=
  cbv [serve response events ServeHTTP defer bind when
       ret return_ panic emit write log_Println os_Getwd os_Open
       ioutil_ReadFile http_ServeFile
       slice_from_1 final panicked resp trace].

(** One step of a symbolic run: a condition a hypothesis decides is
    rewritten, any other is split on, innermost first. *)
Ltac split_run :=
  repeat (cbv beta iota delta [negb orb andb];
          first [ progress autorewrite with run
                | match goal with
                  | H : ?x = _ |- context [match ?x with _ => _ end] =>
                      rewrite H
                  end
                | match goal with
                  | |- context [match ?x with _ => _ end] =>
                      lazymatch x with
                      | context [match _ with _ => _ end] => fail
                      | _ => let E := fresh "E" in
                             destruct x eqn:E; try rewrite E in * |-
                      end
                  end ]).

(** What a hypothesis [resolved env s r = Some p] says, case by case. *)
Ltac resolve_in Hres :=
  unfold resolved, requested, substituted in Hres;
  match type of Hres with
  | context [Path ?r] =>
      let HP := fresh "HP" in
      destruct (Path r) as [|? ?] eqn:HP; [discriminate Hres|]
  end;
  let p0 := fresh "p0" in
  set (p0 := (RootString _ ++ _)%string) in *;
  let HA := fresh "HA" in
  destruct (filepath.Abs _ p0) as [?|?] eqn:HA; [|discriminate Hres];
  let HH := fresh "HH" in
  let HO := fresh "HO" in
  destruct (strings.HasSuffix _ ".html") eqn:HH;
  [destruct (Open _ (_ ++ ".md")) as [[]|?] eqn:HO|];
  injection Hres as <-.

(** * Properties *)

(** ** Facts about strings *)

Lemma append_nil_r (s : string) : s ++ "" = s.
Proof. induction s; cbn; congruence. Qed.

Lemma append_assoc (a b c : string) : (a ++ b) ++ c = a ++ (b ++ c).
Proof. induction a; cbn; congruence. Qed.

Lemma length_append (a b : string) :
  String.length (a ++ b) = String.length a + String.length b.
Proof. induction a; cbn; congruence. Qed.

Lemma prefix_append (p t : string) : String.prefix p (p ++ t) = true.
Proof.
  induction p as [|c p IH]; cbn.
  - now destruct t.
  - destruct (ascii_dec c c); [exact IH | congruence].
Qed.

Lemma prefix_inv (p s : string) :
  String.prefix p s = true -> exists t, s = p ++ t.
Proof.
  revert s; induction p as [|c p IH]; intros s H.
  - now exists s.
  - destruct s as [|d s]; cbn in H; [discriminate|].
    destruct (ascii_dec c d) as [->|]; [|discriminate].
    destruct (IH _ H) as [t ->]. now exists t.
Qed.

(** [HasPrefix(s, p)] holds exactly when [s] is [p] followed by something. *)
Lemma HasPrefix_spec (s p : string) :
  strings.HasPrefix s p = true <-> exists t, s = p ++ t.
Proof.
  unfold strings.HasPrefix; split.
  - apply prefix_inv.
  - intros [t ->]. apply prefix_append.
Qed.


Lemma substring_all (s : string) : substring 0 (String.length s) s = s.
Proof. induction s; cbn; congruence. Qed.

Lemma substring_append_r (a t : string) :
  substring (String.length a) (String.length t) (a ++ t) = t.
Proof. induction a; cbn; [apply substring_all | assumption]. Qed.

Lemma substring_append_l (a t : string) :
  substring 0 (String.length a) (a ++ t) = a.
Proof.
  induction a as [|c a IH]; cbn.
  - now destruct t.
  - now rewrite IH.
Qed.

Lemma substring_split (n : nat) (s : string) :
  n <= String.length s ->
  s = substring 0 n s ++ substring n (String.length s - n) s.
Proof.
  revert n; induction s as [|c s IH]; intros [|n] H; cbn in *;
    try reflexivity; try lia.
  - now rewrite substring_all.
  - f_equal. apply IH. lia.
Qed.

(** [HasSuffix(s, suf)] holds exactly when [s] is something followed by
    [suf]. *)
Lemma HasSuffix_spec (s suf : string) :
  strings.HasSuffix s suf = true <-> exists a, s = a ++ suf.
Proof.
  unfold strings.HasSuffix; split.
  - intros [Hl He]%andb_true_iff.
    apply Nat.leb_le in Hl. apply String.eqb_eq in He.
    exists (substring 0 (String.length s - String.length suf) s).
    pose proof (substring_split (String.length s - String.length suf) s)
      as Hs.
    replace (String.length s - (String.length s - String.length suf))
      with (String.length suf) in Hs by lia.
    rewrite He in Hs. apply Hs. lia.
  - intros [a ->]. rewrite length_append.
    replace (String.length a + String.length suf - String.length suf)
      with (String.length a) by lia.
    rewrite substring_append_r, String.eqb_refl, andb_true_r.
    apply Nat.leb_le. lia.
Qed.

Lemma TrimSuffix_append (a suf : string) :
  strings.TrimSuffix (a ++ suf) suf = a.
Proof.
  unfold strings.TrimSuffix.
  rewrite (proj2 (HasSuffix_spec (a ++ suf) suf)) by now exists a.
  rewrite length_append.
  replace (String.length a + String.length suf - String.length suf)
    with (String.length a) by lia.
  apply substring_append_l.
Qed.

(** [Contains(s, sub)] holds exactly when [sub] occurs inside [s]. *)
Lemma Contains_spec (s sub : string) :
  strings.Contains s sub = true <-> exists a b, s = a ++ sub ++ b.
Proof.
  split.
  - induction s as [|c s IH]; cbn [strings.Contains]; intros H.
    + rewrite orb_false_r in H.
      destruct (prefix_inv _ _ H) as [t Ht]. now exists "", t.
    + apply orb_true_iff in H as [H|H].
      * destruct (prefix_inv _ _ H) as [t Ht]. now exists "", t.
      * destruct (IH H) as (a & b & ->). now exists (String c a), b.
  - intros (a & b & ->). induction a as [|c a IH].
    + cbn [append].
      assert (String.prefix sub (sub ++ b) = true) as Hp
          by apply prefix_append.
      destruct (sub ++ b); cbn [strings.Contains]; now rewrite Hp.
    + cbn [append strings.Contains]. rewrite IH. apply orb_true_r.
Qed.

Lemma last_byte_append (a t : string) :
  t <> "" -> last_byte (a ++ t) = last_byte t.
Proof.
  intros Ht. induction a as [|c a IH]; [reflexivity|].
  cbn [append last_byte]. destruct (a ++ t) eqn:E; [|exact IH].
  destruct a, t; cbn in E; congruence.
Qed.

Lemma HasSuffix_last_byte (s suf : string) :
  suf <> "" -> strings.HasSuffix s suf = true ->
  last_byte s = last_byte suf.
Proof.
  intros Hn [a ->]%HasSuffix_spec. now apply last_byte_append.
Qed.

Lemma md_not_html (p : string) :
  strings.HasSuffix p ".md" = true -> strings.HasSuffix p ".html" = false.
Proof.
  intros H. destruct (strings.HasSuffix p ".html") eqn:E; [|reflexivity].
  apply HasSuffix_last_byte in H; [|discriminate].
  apply HasSuffix_last_byte in E; [|discriminate].
  rewrite H in E. discriminate.
Qed.

Lemma plain_not_html (ct : string) :
  strings.HasPrefix ct "text/plain" = true ->
  strings.HasPrefix ct "text/html" = false.
Proof. intros [t ->]%HasPrefix_spec. reflexivity. Qed.

(** ** Running [fileisgood] and [filepath.Abs] *)

Lemma call_fileisgood env (R' : Type) abs (st : state) :
  call (R':=R') (fileisgood env abs) st
  = Continue (isgood env abs)
             (mkState (resp st) (trace st ++ good_events env abs)%list).
Proof.
  run. destruct st as [w t]; cbn [resp trace].
  destruct (abs =? ""); cbn.
  { now rewrite app_nil_r. }
  destruct (filepath.IsAbs abs); cbn.
  - destruct (EvalSymlinks env abs); cbn; now rewrite <- ?app_assoc.
  - destruct (filepath.Abs (Getwd env) abs) as [a|e]; cbn.
    + destruct (EvalSymlinks env a); cbn; now rewrite <- ?app_assoc.
    + now rewrite <- ?app_assoc.
Qed.

Lemma filepath_Abs_run env (R : Type) path (st : state) :
  filepath_Abs env (R:=R) path st
  = Continue (filepath.Abs (Getwd env) path)
             (mkState (resp st) (trace st ++ abs_events path)%list).
Proof.
  unfold filepath_Abs, abs_events, filepath.Abs. destruct st as [w t].
  destruct (filepath.IsAbs path); run; cbn.
  - now rewrite app_nil_r.
  - reflexivity.
Qed.

#[local] Hint Rewrite call_fileisgood filepath_Abs_run : run.

Lemma good_events_kind env abs e :
  In e (good_events env abs) ->
  e = SysGetwd \/ (exists p, e = SysEvalSymlinks p)
  \/ exists m, e = Log (Println m).
Proof.
  run.
  destruct (abs =? ""); cbn; [tauto|].
  destruct (filepath.IsAbs abs); cbn.
  - destruct (EvalSymlinks env abs); cbn; intuition (subst; eauto).
  - destruct (filepath.Abs (Getwd env) abs) as [a|e']; cbn.
    + destruct (EvalSymlinks env a); cbn; intuition (subst; eauto).
    + intuition (subst; eauto).
Qed.

Lemma good_events_no_read env abs : no_contents_read (good_events env abs).
Proof.
  intros e [->|[[p ->]|[m ->]]]%good_events_kind; reflexivity.
Qed.

Lemma abs_events_kind path e : In e (abs_events path) -> e = SysGetwd.
Proof.
  unfold abs_events. destruct (filepath.IsAbs path); cbn; intuition.
Qed.

(** ** Finishing the cases of a run *)

Lemma is_not_found_NotFound (h : list (string * string)) :
  is_not_found (NotFound (mkResponse h None "")).
Proof. split; reflexivity. Qed.

Lemma no_contents_read_app (a b : list event) :
  no_contents_read a -> no_contents_read b -> no_contents_read (a ++ b).
Proof.
  intros Ha Hb e [H|H]%in_app_iff; [now apply Ha | now apply Hb].
Qed.

Lemma no_contents_read_cons (e : event) (l : list event) :
  reads e = None -> no_contents_read l -> no_contents_read (e :: l).
Proof. intros H Hl e' [<-|H']; [exact H | now apply Hl]. Qed.

Lemma no_contents_read_nil : no_contents_read [].
Proof. intros e []. Qed.

Lemma abs_events_no_read path : no_contents_read (abs_events path).
Proof. intros e ->%abs_events_kind. reflexivity. Qed.

(** A trace built from events that read nothing. *)
Ltac no_reads :=
  repeat first [ apply no_contents_read_nil
               | apply good_events_no_read
               | apply abs_events_no_read
               | apply no_contents_read_app
               | apply no_contents_read_cons; [reflexivity|] ].

(** Membership of an event in the trace of a finished run, case by case. *)
Ltac in_trace H :=
  lazymatch type of H with
  | In _ (_ ++ _)%list =>
      apply in_app_or in H; destruct H as [H|H]; in_trace H
  | In _ (_ :: _) =>
      destruct H as [H|H]; [try discriminate H | in_trace H]
  | In _ [] => destruct H
  | In _ (good_events _ _) =>
      apply good_events_kind in H; destruct H as [H|[[? H]|[? H]]];
      try discriminate H
  | In _ (abs_events _) =>
      apply abs_events_kind in H; try discriminate H
  | _ => idtac
  end.

Ltac tidy :=
  cbn [resp trace app HeaderAdd Header Status Body fresh] in *;
  repeat match goal with
         | H : Some _ = Some _ |- _ => injection H as H
         | H : None = Some _ |- _ => discriminate H
         | H : Some _ = None |- _ => discriminate H
         | H : Ok _ = Ok _ |- _ => injection H as H
         | H : Ok _ = Err _ |- _ => discriminate H
         | H : Err _ = Ok _ |- _ => discriminate H
         end;
  subst.

(** An event that is in the trace of a finished run. *)
Ltac find_in :=
  lazymatch goal with
  | |- In _ (_ ++ _)%list =>
      apply in_or_app; first [right; find_in | left; find_in]
  | |- In _ (_ :: _) => first [left; reflexivity | right; find_in]
  end.

(** ** Facts about [filepath.Clean] *)













(** ** The sample site *)

Lemma Header_Write (b : string) (w : ResponseWriter) :
  Header (Write b w) = Header w.
Proof. unfold Write, WriteHeader. now destruct (Status w). Qed.

Lemma Header_WriteHeader (code : nat) (w : ResponseWriter) :
  Header (WriteHeader code w) = Header w.
Proof. unfold WriteHeader. now destruct (Status w). Qed.

Lemma In_HeaderSet (k v k' v' : string) (w : ResponseWriter) :
  (k =? k') = false ->
  In (k, v) (Header w) -> In (k, v) (Header (HeaderSet k' v' w)).
Proof.
  intros Hk H. cbn [HeaderSet Header]. apply in_or_app. left.
  apply filter_In. split; [exact H|]. cbn [fst]. now rewrite Hk.
Qed.

(** The sample static file server leaves the handler's headers in place. *)
Lemma Sample_ServeFile_keeps (w : ResponseWriter) (r : Request)
      (name : string) (kv : string * string) :
  In kv own_headers ->
  In kv (Header w) -> In kv (Header (Sample.ServeFile w r name)).
Proof.
  intros [<-|[<-|[]]] H; unfold Sample.ServeFile, NotFound, Error.
  all: destruct (Sample.ReadFile name).
  all: rewrite Header_Write, ?Header_WriteHeader.
  all: repeat (apply In_HeaderSet; [reflexivity|]); exact H.
Qed.

(** On the sample site every real path is free of symbolic links. *)
Lemma Sample_real_paths (x real q rest : string) :
  Sample.EvalSymlinks x = Ok real ->
  real = q ++ rest ->
  rest = "" \/ strings.HasPrefix rest "/" = true ->
  Sample.isSymlink q = false.
Proof.
  intros Hx Hq _.
  destruct (Sample.isSymlink q) eqn:E; [|reflexivity]. exfalso.
  unfold Sample.isSymlink in E. cbn [existsb Sample.symlinks] in E.
  rewrite orb_false_r in E. apply String.eqb_eq in E. subst q.
  unfold Sample.EvalSymlinks, Sample.lookup in Hx.
  destruct (find _ Sample.tree) as [e|] eqn:F; [|discriminate].
  apply find_some in F as [F _].
  destruct e as [path [real' n]]. cbn in Hx. injection Hx as ->.
  subst real.
  unfold Sample.tree in F. cbn [In] in F.
  repeat (destruct F as [F|F]; [injection F as _ F _; discriminate F|]).
  exact F.
Qed.

(** The model of [filepath.Clean] on paths of the kind the handler builds. *)
Example Clean_examples :
  map filepath.Clean
      ["/srv/www/a/b/.."; "/srv/www/.."; "/srv/www/../.."; "/srv//www/./x.md";
       "/.."; "a/../../b"; ""; "/"; "./"; "/srv/www/"; "a//b/"; "../..";
       "/a/..b"]
  = ["/srv/www/a"; "/srv"; "/"; "/srv/www/x.md";
     "/"; "../b"; "."; "/"; "."; "/srv/www"; "a/b"; "../..";
     "/a/..b"].
Proof. reflexivity. Qed.

(** [prepareDirectory] ends the root string with a slash. *)
Lemma prepareDirectory_slash env dir root :
  prepareDirectory env dir = Ok root ->
  strings.HasSuffix root "/" = true.
Proof.
  unfold prepareDirectory.
  destruct (filepath.Abs _ _) as [d|]; [|discriminate].
  destruct (strings.HasSuffix d "/") eqn:E; cbn; intros [= <-].
  - exact E.
  - apply HasSuffix_spec. now exists d.
Qed.

(** [prepareDirectory] on the sample machine. *)
Example prepareDirectory_examples :
  map (prepareDirectory (Sample.env "index.md")) ["."; "/srv/www"; "docs/"; "/"]
  = [Ok "/home/md/"; Ok "/srv/www/"; Ok "/home/md/docs/"; Ok "/"].
Proof. reflexivity. Qed.

(** ** The views agree with the handler *)

(** The file name the handler logs on line 182 is [requested]. *)
Lemma requested_logged env s r id remote method path abs :
  In (Log (LogRequest id remote method path abs)) (events env s r) ->
  requested env s r = Some abs.
Proof.
  unfold requested. run_handler.
  destruct (Path r) as [|c t] eqn:HP.
  all: try set (p0 := (RootString s ++ _)%string) in *.
  all: split_run; tidy.
  all: intros H; in_trace H; now injection H as _ _ _ _ <-.
Qed.

(** The path the handler opens on line 208 is [resolved]. *)
Lemma resolved_opened env s r p :
  Method r = "GET" ->
  strings.Contains (Path r) "../" = false ->
  resolved env s r = Some p ->
  In (SysOpen p) (events env s r).
Proof.
  intros Hm%String.eqb_eq Hc Hres.
  resolve_in Hres.
  all: run_handler; rewrite HP; fold p0; split_run; tidy.
  all: find_in.
Qed.

(** ** The claims *)

(** C1.  A request whose URL path contains [../] gets the not-found
    response, and the handler leaves without a single file-system event:
    no [Getwd], [Open], [EvalSymlinks], [ReadFile] or [ServeFile]. *)
Theorem traversal_rejected_before_filesystem env s r :
  (exists a b, Path r = a ++ "../" ++ b) ->
  panicked (serve env s r) = false
  /\ response env s r = NotFound fresh
  /\ is_not_found (response env s r)
  /\ forall e, In e (events env s r) -> is_fs e = false.
Proof.
  intros H%Contains_spec. run. rewrite H.
  destruct (Method r =? "GET"); cbn.
  all: repeat split; intros e [<-|[]]; reflexivity.
Qed.

Lemma traversal_rejected_witness :
  let r := Sample.request "GET" "/docs/../../../etc/passwd" "" in
  is_not_found (response (Sample.env "index.md") Sample.srv r)
  /\ forall e, In e (events (Sample.env "index.md") Sample.srv r) ->
               is_fs e = false.
Proof.
  intros r.
  apply (traversal_rejected_before_filesystem (Sample.env "index.md")
           Sample.srv r).
  exists "/docs/", "../../etc/passwd". reflexivity.
Defined.

(** A resolved path that fails the symlink check or the root-prefix
    check is answered with the not-found response, and nothing is read. *)
Lemma failed_check_not_found env s r p :
  resolved env s r = Some p ->
  isgood env p = false \/ strings.HasPrefix p (RootString s) = false ->
  is_not_found (response env s r)
  /\ no_contents_read (events env s r).
Proof.
  intros Hres Hbad.
  resolve_in Hres.
  all: run_handler; rewrite HP; fold p0; split_run; tidy.
  all: first [ exfalso; destruct Hbad as [Hbad|Hbad];
               rewrite Hbad in *; discriminate
             | split; [apply is_not_found_NotFound | no_reads] ].
Qed.

(** C2.  Contents are read, and a body other than the not-found body is
    written, only for the resolved path and only after [fileisgood] and
    the root-prefix check have both accepted it; when either rejects the
    resolved path the response is the not-found response and nothing is
    read. *)
Theorem contents_only_after_both_checks env s r :
  (forall p,
      In (SysReadFile p) (events env s r)
      \/ In (SysServeFile p) (events env s r) ->
      resolved env s r = Some p
      /\ isgood env p = true
      /\ strings.HasPrefix p (RootString s) = true)
  /\ (Body (response env s r) <> "" ->
      ~ is_not_found (response env s r) ->
      exists p, resolved env s r = Some p
                /\ isgood env p = true
                /\ strings.HasPrefix p (RootString s) = true)
  /\ (forall p,
         resolved env s r = Some p ->
         isgood env p = false
         \/ strings.HasPrefix p (RootString s) = false ->
         is_not_found (response env s r)
         /\ no_contents_read (events env s r)).
Proof.
  split; [|split; [|apply failed_check_not_found]].
  all: unfold resolved, requested, substituted.
  all: run_handler.
  all: destruct (Path r) as [|c t] eqn:HP.
  all: try set (p0 := (RootString s ++ _)%string) in *.
  all: split_run; tidy.
  all: try (intros p [H|H]; in_trace H; injection H as <-; repeat split;
            assumption).
  all: intros Hb Hn;
    lazymatch type of Hn with
    | ~ is_not_found (NotFound _) =>
        exfalso; apply Hn, is_not_found_NotFound
    | _ => first [ now exfalso; apply Hb
                 | eexists; repeat split; eassumption ]
    end.
Qed.

Lemma contents_only_after_both_checks_witness :
  let env := Sample.env "index.md" in
  let r := Sample.request "GET" "/out/passwd" "" in
  resolved env Sample.srv r = Some "/srv/www/out/passwd"
  /\ Open env "/srv/www/out/passwd" = Ok tt
  /\ is_not_found (response env Sample.srv r)
  /\ no_contents_read (events env Sample.srv r).
Proof.
  intros env r. split; [reflexivity|]. split; [reflexivity|].
  apply (proj2 (proj2 (contents_only_after_both_checks env Sample.srv r))
           "/srv/www/out/passwd").
  - reflexivity.
  - left. reflexivity.
Defined.

(** C3.  [fileisgood] always returns, and it returns true exactly for a
    non-empty path whose canonical form exists and is its own real path:
    [EvalSymlinks] succeeds on it and gives back the same bytes.  The
    canonical form is what lines 283-286 leave in [abs]: the path itself
    when it is absolute, as every path the handler passes is, and
    [filepath.Abs] of it otherwise.  Since no directory on the way to a
    real path is a symbolic link, a path with a symbolic link anywhere on
    the way, not only in its last element, is rejected. *)
Theorem fileisgood_iff_real_path env p :
  (forall st : state,
      call (R':=unit) (fileisgood env p) st
      = Continue (isgood env p)
                 (mkState (resp st) (trace st ++ good_events env p)%list))
  /\ (isgood env p = true <->
      p <> ""
      /\ exists a real,
          canonical env p = Ok a
          /\ EvalSymlinks env a = Ok real
          /\ real = a)
  /\ (forall isSymlink : string -> bool,
         (forall x real q rest,
             EvalSymlinks env x = Ok real ->
             real = q ++ rest ->
             rest = "" \/ strings.HasPrefix rest "/" = true ->
             isSymlink q = false) ->
         forall a q rest,
           canonical env p = Ok a ->
           a = q ++ rest ->
           rest = "" \/ strings.HasPrefix rest "/" = true ->
           isSymlink q = true ->
           isgood env p = false).
Proof.
  assert (isgood env p = true <->
          p <> ""
          /\ exists a real,
              canonical env p = Ok a
              /\ EvalSymlinks env a = Ok real
              /\ real = a) as Hiff.
  { unfold canonical. run.
    destruct (p =? "") eqn:Ep; cbn.
    { apply String.eqb_eq in Ep. split; [discriminate | tauto]. }
    apply String.eqb_neq in Ep.
    destruct (filepath.IsAbs p); cbn.
    - destruct (EvalSymlinks env p) as [real|e] eqn:Er; cbn.
      + rewrite String.eqb_eq. split.
        * intros ->. split; [exact Ep|]. now exists p, p.
        * intros (_ & a & real' & Ha & Hr & ->).
          injection Ha as <-. congruence.
      + split; [discriminate|].
        intros (_ & a & real' & Ha & Hr & _). injection Ha as <-.
        congruence.
    - destruct (filepath.Abs (Getwd env) p) as [a|e]; cbn.
      + destruct (EvalSymlinks env a) as [real|e] eqn:Er; cbn.
        * rewrite String.eqb_eq. split.
          -- intros ->. split; [exact Ep|]. now exists a, a.
          -- intros (_ & a' & real' & Ha & Hr & ->).
             injection Ha as <-. congruence.
        * split; [discriminate|].
          intros (_ & a' & real' & Ha & Hr & _). injection Ha as <-.
          congruence.
      + split; [discriminate|].
        intros (_ & a' & real' & Ha & _). discriminate Ha. }
  split; [intros st; apply call_fileisgood|].
  split; [exact Hiff|].
  intros isSymlink Hreal a q rest Ha Hq Hrest Hlink.
  destruct (isgood env p) eqn:E; [|reflexivity].
  destruct (proj1 Hiff eq_refl) as (_ & a' & real & Ha' & Hr & ->).
  rewrite Ha in Ha'. injection Ha' as <-.
  rewrite (Hreal a a q rest Hr Hq Hrest) in Hlink. discriminate.
Qed.

Lemma fileisgood_iff_real_path_witness :
  let env := Sample.env "index.md" in
  isgood env "/srv/www/out/passwd" = false
  /\ (isgood env "/srv/www/doc.md" = true <->
      "/srv/www/doc.md" <> ""
      /\ exists a real,
          canonical env "/srv/www/doc.md" = Ok a
          /\ EvalSymlinks env a = Ok real
          /\ real = a).
Proof.
  intros env. split.
  - apply (proj2 (proj2 (fileisgood_iff_real_path env "/srv/www/out/passwd"))
             Sample.isSymlink Sample_real_paths
             "/srv/www/out/passwd" "/srv/www/out" "/passwd").
    + reflexivity.
    + reflexivity.
    + right. reflexivity.
    + reflexivity.
  - apply (fileisgood_iff_real_path env "/srv/www/doc.md").
Defined.

(** ** Paths that end in [..] *)

















(** The markdown branch (lines 258-268), reached by a resolved path that
    passes every check. *)
Lemma run_markdown env s r p b :
  Method r = "GET" ->
  strings.Contains (Path r) "../" = false ->
  resolved env s r = Some p ->
  strings.HasSuffix p ".md" = true ->
  Open env p = Ok tt ->
  isgood env p = true ->
  strings.HasPrefix p (RootString s) = true ->
  ReadFile env p = Ok b ->
  strings.HasPrefix (DetectContentType env b) "text/plain" = true ->
  response env s r
  = Write (if strings.Contains (RawQuery r) "raw" then b
           else MarkdownCommon env b)
          (mkResponse own_headers None "").
Proof.
  intros Hm%String.eqb_eq Hc Hres Hmd Hopen Hgood Hroot Hread Hplain.
  pose proof (md_not_html _ Hmd) as Hnh.
  pose proof (plain_not_html _ Hplain) as Hnt.
  resolve_in Hres; try congruence.
  all: run_handler; rewrite HP; fold p0; split_run; tidy.
  all: reflexivity.
Qed.

Lemma trymd_suffix (a : string) :
  strings.HasSuffix (strings.TrimSuffix a ".html" ++ ".md") ".md" = true.
Proof. apply HasSuffix_spec. now eexists. Qed.

Lemma trymd_differs (a : string) :
  strings.HasSuffix a ".html" = true ->
  strings.TrimSuffix a ".html" ++ ".md" <> a.
Proof.
  intros H E. pose proof (md_not_html _ (trymd_suffix a)) as Hn.
  rewrite E in Hn. congruence.
Qed.

(** C5, as the code has it.  When the canonical path of a GET request
    ends in [.html] and the [.md] sibling can be opened, the sibling is the
    resolved path: the [.html] file is neither opened nor read, and the
    response is [MarkdownCommon] of the sibling's bytes whenever the
    sibling passes both checks, can be read, classifies as [text/plain]
    and the query string does not contain [raw]. *)
Theorem html_request_served_from_md env s r p0 a :
  Method r = "GET" ->
  strings.Contains (Path r) "../" = false ->
  requested env s r = Some p0 ->
  filepath.Abs (Getwd env) p0 = Ok a ->
  strings.HasSuffix a ".html" = true ->
  Open env (strings.TrimSuffix a ".html" ++ ".md") = Ok tt ->
  resolved env s r = Some (strings.TrimSuffix a ".html" ++ ".md")
  /\ (forall e, In e (events env s r) ->
                e <> SysOpen a /\ reads e <> Some a)
  /\ (forall b,
         isgood env (strings.TrimSuffix a ".html" ++ ".md") = true ->
         strings.HasPrefix (strings.TrimSuffix a ".html" ++ ".md")
                           (RootString s) = true ->
         ReadFile env (strings.TrimSuffix a ".html" ++ ".md") = Ok b ->
         strings.HasPrefix (DetectContentType env b) "text/plain" = true ->
         strings.Contains (RawQuery r) "raw" = false ->
         Body (response env s r) = MarkdownCommon env b
         /\ Status (response env s r) = Some 200
         /\ Header (response env s r) = own_headers).
Proof.
  intros Hm Hc Hreq HA HH HO.
  pose proof (trymd_differs a HH) as Hne.
  assert (resolved env s r
          = Some (strings.TrimSuffix a ".html" ++ ".md")) as Hres.
  { unfold resolved, substituted. now rewrite Hreq, HA, HH, HO. }
  split; [exact Hres|]. split.
  - apply String.eqb_eq in Hm.
    unfold requested in Hreq.
    destruct (Path r) as [|c t] eqn:HP; [discriminate|].
    injection Hreq as Hreq.
    run_handler. rewrite HP, Hreq. split_run; tidy.
    all: intros e He; in_trace He; subst e; cbn [reads];
      split; intros Heq;
      first [discriminate Heq | injection Heq as Heq; congruence].
  - intros b Hgood Hroot Hread Hplain Hraw.
    rewrite (run_markdown env s r _ b Hm Hc Hres);
      auto using trymd_suffix.
    rewrite Hraw. repeat split.
Qed.

Lemma html_request_served_from_md_witness :
  let env := Sample.env "index.md" in
  let r := Sample.request "GET" "/page.html" "" in
  resolved env Sample.srv r = Some "/srv/www/page.md"
  /\ (forall e, In e (events env Sample.srv r) ->
                e <> SysOpen "/srv/www/page.html"
                /\ reads e <> Some "/srv/www/page.html")
  /\ Body (response env Sample.srv r) = "<p># Page</p>" ++ newline.
Proof.
  intros env r.
  destruct (html_request_served_from_md env Sample.srv r
              "/srv/www/page.html" "/srv/www/page.html")
    as (Hres & Hev & Hbody); try reflexivity.
  split; [exact Hres|]. split; [exact Hev|].
  apply (Hbody "# Page"); reflexivity.
Defined.

(** C5 as stated fails: with [raw] in the query string the sibling's bytes
    are sent as they are, not rendered. *)
Lemma html_sibling_sent_unrendered :
  let env := Sample.env "index.md" in
  let r := Sample.request "GET" "/page.html" "raw" in
  Method r = "GET"
  /\ strings.HasSuffix (Path r) ".html" = true
  /\ requested env Sample.srv r = Some "/srv/www/page.html"
  /\ Open env "/srv/www/page.md" = Ok tt
  /\ ReadFile env "/srv/www/page.md" = Ok "# Page"
  /\ Body (response env Sample.srv r) = "# Page"
  /\ Body (response env Sample.srv r) <> MarkdownCommon env "# Page".
Proof. vm_compute. repeat split. discriminate. Qed.

(** C6.  When the handler has read a file ending in [.md] and its bytes
    classify as [text/plain], the response is those bytes, with no
    [Content-Type] in the header map, if the query string contains [raw],
    and [MarkdownCommon] of those bytes if it does not. *)
Theorem markdown_raw_or_rendered env s r p b :
  strings.HasSuffix p ".md" = true ->
  In (SysReadFile p) (events env s r) ->
  ReadFile env p = Ok b ->
  strings.HasPrefix (DetectContentType env b) "text/plain" = true ->
  (strings.Contains (RawQuery r) "raw" = true ->
   Body (response env s r) = b
   /\ Status (response env s r) = Some 200
   /\ Header (response env s r) = own_headers
   /\ HeaderGet "Content-Type" (response env s r) = None)
  /\ (strings.Contains (RawQuery r) "raw" = false ->
      Body (response env s r) = MarkdownCommon env b
      /\ Status (response env s r) = Some 200
      /\ Header (response env s r) = own_headers).
Proof.
  intros Hmd Hin Hread Hplain.
  pose proof (md_not_html _ Hmd) as Hnh.
  pose proof (plain_not_html _ Hplain) as Hnt.
  revert Hin. run_handler.
  destruct (Path r) as [|c t] eqn:HP.
  all: try set (p0 := (RootString s ++ _)%string) in *.
  all: split_run; tidy.
  all: intros Hin; in_trace Hin; injection Hin as Hin; subst.
  all: rewrite ?Hread in *; tidy; try congruence.
  all: split; intros Hraw; try discriminate Hraw; repeat split.
Qed.

Lemma markdown_raw_or_rendered_witness :
  let env := Sample.env "index.md" in
  Body (response env Sample.srv (Sample.request "GET" "/doc.md" "raw=1"))
  = "Some *text*."
  /\ Body (response env Sample.srv (Sample.request "GET" "/doc.md" ""))
     = "<p>Some *text*.</p>" ++ newline.
Proof.
  intros env. split.
  - apply (markdown_raw_or_rendered env Sample.srv
             (Sample.request "GET" "/doc.md" "raw=1")
             "/srv/www/doc.md" "Some *text*.").
    + reflexivity.
    + vm_compute. tauto.
    + reflexivity.
    + reflexivity.
    + reflexivity.
  - apply (markdown_raw_or_rendered env Sample.srv
             (Sample.request "GET" "/doc.md" "")
             "/srv/www/doc.md" "Some *text*.").
    + reflexivity.
    + vm_compute. tauto.
    + reflexivity.
    + reflexivity.
    + reflexivity.
Defined.

(** After a final slash the handler appends [index.md], whatever the
    [-index] flag says; the flag is used for the empty rest only. *)
Lemma requested_directory env s r c t :
  Path r = String c t ->
  t <> "" ->
  strings.HasSuffix t "/" = true ->
  requested env s r = Some (RootString s ++ t ++ "index.md").
Proof.
  intros HP Ht%String.eqb_neq Hs. unfold requested.
  now rewrite HP, Ht, Hs.
Qed.

(** C7: the code at the failing input.  With [-index home.md], [/] is
    answered from [home.md], but [/docs/] is answered from
    [docs/index.md]; [docs/home.md] is never opened. *)
Theorem index_flag_ignored_below_root :
  let env := Sample.env "home.md" in
  let top := Sample.request "GET" "/" "" in
  let dir := Sample.request "GET" "/docs/" "" in
  indexPage env = "home.md"
  /\ resolved env Sample.srv top = Some "/srv/www/home.md"
  /\ resolved env Sample.srv dir = Some "/srv/www/docs/index.md"
  /\ Open env "/srv/www/docs/home.md" = Ok tt
  /\ ~ In (SysOpen "/srv/www/docs/home.md") (events env Sample.srv dir)
  /\ In (SysReadFile "/srv/www/docs/index.md") (events env Sample.srv dir)
  /\ Body (response env Sample.srv dir) = MarkdownCommon env "# Docs".
Proof.
  vm_compute. repeat split; try tauto.
  intros H. repeat (destruct H as [H|H]; [discriminate H|]). exact H.
Qed.

(** C8, as the code has it.  Once a GET request has passed the [../]
    guard the header map holds [Server] and [X-Frame-Options], whatever
    the handler answers (the static file server is assumed to leave these
    two headers in place); the two guards before line 157 answer with the
    headers of [http.NotFound] alone. *)
Theorem own_headers_after_guards env s r :
  (forall w r' name kv,
      In kv own_headers ->
      In kv (Header w) -> In kv (Header (ServeFile env w r' name))) ->
  (Method r = "GET" ->
   strings.Contains (Path r) "../" = false ->
   In ("Server", "markdownd/0.0.6") (Header (response env s r))
   /\ In ("X-Frame-Options", "DENY") (Header (response env s r)))
  /\ (Method r <> "GET" \/ strings.Contains (Path r) "../" = true ->
      Header (response env s r)
      = [("Content-Type", "text/plain; charset=utf-8");
         ("X-Content-Type-Options", "nosniff")]).
Proof.
  intros Hkeep. split.
  - intros Hm%String.eqb_eq Hc.
    run_handler. rewrite Hm, Hc.
    destruct (Path r) as [|c t] eqn:HP.
    all: try set (p0 := (RootString s ++ _)%string) in *.
    all: split_run; tidy.
    all: split;
      lazymatch goal with
      | |- In _ (Header (ServeFile _ _ _ _)) =>
          apply Hkeep; [cbv; tauto|]
      | _ => idtac
      end; cbn; tauto.
  - intros H. run_handler.
    destruct (Method r =? "GET") eqn:Hm; cbv beta iota delta [negb].
    + destruct H as [H|H]; [now apply String.eqb_eq in Hm|].
      now rewrite H.
    + reflexivity.
Qed.

Lemma own_headers_after_guards_witness :
  let env := Sample.env "index.md" in
  let r := Sample.request "GET" "/style.css" "" in
  In (Log (LogServing (rfid env) "text/plain; charset=utf-8"
             "/srv/www/style.css"))
     (events env Sample.srv r)
  /\ In ("Server", "markdownd/0.0.6") (Header (response env Sample.srv r))
  /\ In ("X-Frame-Options", "DENY") (Header (response env Sample.srv r)).
Proof.
  intros env r. split.
  - vm_compute. tauto.
  - apply (own_headers_after_guards env Sample.srv r).
    + exact Sample_ServeFile_keeps.
    + reflexivity.
    + reflexivity.
Defined.

(** C8 as stated fails: the responses to a POST and to a path with [../]
    are written with neither header. *)
Lemma early_rejections_lack_headers :
  let env := Sample.env "index.md" in
  let post := Sample.request "POST" "/index.md" "" in
  let dots := Sample.request "GET" "/docs/../index.md" "" in
  Status (response env Sample.srv post) = Some 404
  /\ HeaderGet "Server" (response env Sample.srv post) = None
  /\ HeaderGet "X-Frame-Options" (response env Sample.srv post) = None
  /\ Status (response env Sample.srv dots) = Some 404
  /\ HeaderGet "Server" (response env Sample.srv dots) = None
  /\ HeaderGet "X-Frame-Options" (response env Sample.srv dots) = None.
Proof. vm_compute. repeat split. Qed.

(** C9, as the code has it.  The handler adds a [Content-Type] in one
    branch only, raw HTML.  Both markdown branches write their body under
    the two headers of lines 157-161, the fall-through hands the writer
    with those two headers to [http.ServeFile], and a run that takes none
    of the four branches panics or answers through [http.NotFound]. *)
Theorem content_type_added_for_raw_html_only env s r :
  (forall id p,
      In (Log (LogRawHtml id p)) (events env s r) ->
      Header (response env s r)
      = (own_headers ++ [("Content-Type", "text/html")])%list)
  /\ (forall id p,
         In (Log (LogRawMarkdown id p)) (events env s r) ->
         Header (response env s r) = own_headers)
  /\ (forall id p,
         In (Log (LogMarkdown id p)) (events env s r) ->
         Header (response env s r) = own_headers)
  /\ (forall id ct p,
         In (Log (LogServing id ct p)) (events env s r) ->
         response env s r
         = ServeFile env (mkResponse own_headers None "") r p)
  /\ ((forall l, In (Log l) (events env s r) -> serves l = false) ->
      panicked (serve env s r) = true
      \/ exists h, response env s r = NotFound (mkResponse h None "")).
Proof.
  run_handler.
  destruct (Path r) as [|c t] eqn:HP.
  all: try set (p0 := (RootString s ++ _)%string) in *.
  all: split_run; tidy.
  all: repeat lazymatch goal with
              | |- _ /\ _ => split
              end.
  all: try (intros id p H; in_trace H; reflexivity).
  all: try (intros id ct p H; in_trace H; inversion H; reflexivity).
  all: intros Hall;
    lazymatch goal with
    | |- true = true \/ _ => left; reflexivity
    | |- _ \/ (exists h, NotFound _ = _) => right; eexists; reflexivity
    | _ => exfalso;
           first [ discriminate (Hall (LogRawHtml _ _) ltac:(find_in))
                 | discriminate (Hall (LogRawMarkdown _ _) ltac:(find_in))
                 | discriminate (Hall (LogMarkdown _ _) ltac:(find_in))
                 | discriminate (Hall (LogServing _ _ _) ltac:(find_in)) ]
    end.
Qed.

Lemma content_type_added_for_raw_html_only_witness :
  let env := Sample.env "index.md" in
  Header (response env Sample.srv (Sample.request "GET" "/page.html" "raw"))
  = [("Server", "markdownd/0.0.6"); ("X-Frame-Options", "DENY")]
  /\ Header (response env Sample.srv
               (Sample.request "GET" "/out/../page.html" ""))
     = [("Content-Type", "text/plain; charset=utf-8");
        ("X-Content-Type-Options", "nosniff")].
Proof.
  intros env. split.
  - apply (proj1 (proj2 (content_type_added_for_raw_html_only
                           env Sample.srv
                           (Sample.request "GET" "/page.html" "raw")))
             (rfid env) "/srv/www/page.md").
    vm_compute. tauto.
  - destruct (proj2 (proj2 (proj2 (proj2
                (content_type_added_for_raw_html_only env Sample.srv
                   (Sample.request "GET" "/out/../page.html" ""))))))
      as [H|[h H]].
    + intros l Hl. vm_compute in Hl. destruct Hl as [Hl|[]].
      injection Hl as <-. reflexivity.
    + discriminate H.
    + reflexivity.
Defined.

(** C9 as stated fails: the rendered-markdown branch writes its body with
    no [Content-Type] in the header map. *)
Lemma rendered_markdown_without_content_type :
  let env := Sample.env "index.md" in
  let r := Sample.request "GET" "/doc.md" "" in
  In (Log (LogMarkdown (rfid env) "/srv/www/doc.md"))
     (events env Sample.srv r)
  /\ Body (response env Sample.srv r) = MarkdownCommon env "Some *text*."
  /\ Status (response env Sample.srv r) = Some 200
  /\ HeaderGet "Content-Type" (response env Sample.srv r) = None.
Proof. vm_compute. repeat split. tauto. Qed.

(** C10.  A request with any method other than GET gets the response a
    GET gets for a path that cannot be opened: status 404 and the body
    [404 page not found]. *)
Theorem non_get_same_as_missing env s r1 r2 p err :
  Method r1 <> "GET" ->
  Method r2 = "GET" ->
  strings.Contains (Path r2) "../" = false ->
  resolved env s r2 = Some p ->
  Open env p = Err err ->
  is_not_found (response env s r1)
  /\ is_not_found (response env s r2)
  /\ Status (response env s r1) = Status (response env s r2)
  /\ Body (response env s r1) = Body (response env s r2).
Proof.
  intros Hm1%String.eqb_neq Hm2%String.eqb_eq Hc Hres Hopen.
  assert (is_not_found (response env s r1)) as [S1 B1].
  { run_handler. rewrite Hm1. apply is_not_found_NotFound. }
  assert (is_not_found (response env s r2)) as [S2 B2].
  { resolve_in Hres; try congruence.
    all: run_handler; rewrite HP; fold p0; split_run; tidy.
    all: apply is_not_found_NotFound. }
  repeat split; congruence.
Qed.

Lemma non_get_same_as_missing_witness :
  let env := Sample.env "index.md" in
  let post := Sample.request "POST" "/doc.md" "" in
  let gone := Sample.request "GET" "/gone.md" "" in
  Status (response env Sample.srv post)
  = Status (response env Sample.srv gone)
  /\ Body (response env Sample.srv post)
     = Body (response env Sample.srv gone).
Proof.
  intros env post gone.
  apply (non_get_same_as_missing env Sample.srv post gone
           "/srv/www/gone.md"
           "open /srv/www/gone.md: no such file or directory").
  - discriminate.
  - reflexivity.
  - reflexivity.
  - reflexivity.
  - reflexivity.
Defined.

(** * Further properties of [main.go] *)

(** ** [prepareDirectory] *)

Lemma IsAbs_append (p t : string) :
  filepath.IsAbs p = true -> filepath.IsAbs (p ++ t) = true.
Proof.
  intros [u ->]%HasPrefix_spec. apply HasPrefix_spec.
  exists (u ++ t). now rewrite append_assoc.
Qed.

Lemma IsAbs_nonempty (p : string) : filepath.IsAbs p = true -> p <> "".
Proof. intros H ->. discriminate H. Qed.

(** A rooted path stays rooted when it is cleaned. *)
Lemma IsAbs_Clean (p : string) :
  filepath.IsAbs p = true -> filepath.IsAbs (filepath.Clean p) = true.
Proof.
  intros H. unfold filepath.Clean.
  pose proof (IsAbs_nonempty p H) as Hn. apply String.eqb_neq in Hn.
  rewrite Hn, H.
  apply HasPrefix_spec. now eexists.
Qed.

Lemma IsAbs_Abs (getwd : result string) (p a : string) :
  filepath.IsAbs p = true \/ (exists wd, getwd = Ok wd /\ filepath.IsAbs wd = true) ->
  filepath.Abs getwd p = Ok a ->
  filepath.IsAbs a = true.
Proof.
  unfold filepath.Abs. intros H.
  destruct (filepath.IsAbs p) eqn:Hp.
  - intros [= <-]. now apply IsAbs_Clean.
  - destruct H as [H|(wd & -> & Hwd)]; [discriminate|].
    intros [= <-]. unfold filepath.Join.
    pose proof (IsAbs_nonempty wd Hwd) as Hn. apply String.eqb_neq in Hn.
    rewrite Hn. cbn [negb].
    now apply IsAbs_Clean, IsAbs_append.
Qed.

(** X1.  Whatever [prepareDirectory] returns ends in a slash, so that the
    prefix check of the handler compares whole directory names. *)
Theorem prepareDirectory_ends_in_slash env dir root :
  prepareDirectory env dir = Ok root ->
  strings.HasSuffix root "/" = true.
Proof. apply prepareDirectory_slash. Qed.

Lemma prepareDirectory_ends_in_slash_witness :
  strings.HasSuffix "/home/md/docs/" "/" = true.
Proof.
  apply (prepareDirectory_ends_in_slash (Sample.env "index.md") "docs").
  reflexivity.
Defined.

(** X2.  [prepareDirectory] gives up exactly when the directory is relative
    and the working directory cannot be had, with the message of
    [os.Getwd]; an absolute directory never fails. *)
Theorem prepareDirectory_fails_iff env dir msg :
  prepareDirectory env dir = Err msg
  <-> filepath.IsAbs dir = false /\ Getwd env = Err msg.
Proof.
  unfold prepareDirectory, filepath.Abs.
  assert (filepath.IsAbs (if dir =? "." then dir ++ "/" else dir)
          = filepath.IsAbs dir) as ->.
  { destruct (dir =? ".") eqn:Ed; [|reflexivity].
    apply String.eqb_eq in Ed. now subst dir. }
  destruct (filepath.IsAbs dir), (Getwd env) as [wd|e]; cbn.
  all: split; [intros H | intros [H1 H2]]; try discriminate.
  - split; [reflexivity | congruence].
  - congruence.
Qed.

(** X3.  The root [prepareDirectory] returns is an absolute path whenever
    the directory is absolute or the working directory is. *)
Theorem prepareDirectory_rooted env dir root :
  filepath.IsAbs dir = true
  \/ (exists wd, Getwd env = Ok wd /\ filepath.IsAbs wd = true) ->
  prepareDirectory env dir = Ok root ->
  filepath.IsAbs root = true.
Proof.
  intros H. unfold prepareDirectory.
  destruct (filepath.Abs _ _) as [d|] eqn:E; [|discriminate].
  assert (filepath.IsAbs d = true) as Hd.
  { eapply IsAbs_Abs; [|exact E].
    destruct H as [H|H]; [|now right].
    left. destruct (dir =? ".") eqn:Ed; [|exact H].
    apply String.eqb_eq in Ed. subst. discriminate H. }
  intros [= <-].
  destruct (strings.HasSuffix d "/"); cbn [negb]; [exact Hd|].
  now apply IsAbs_append.
Qed.

Lemma prepareDirectory_rooted_witness :
  filepath.IsAbs "/home/md/" = true /\ filepath.IsAbs "/srv/www/" = true.
Proof.
  split.
  - apply (prepareDirectory_rooted (Sample.env "index.md") "." "/home/md/").
    + right. exists "/home/md". split; reflexivity.
    + reflexivity.
  - apply (prepareDirectory_rooted (Sample.env "index.md") "/srv/www"
             "/srv/www/").
    + left. reflexivity.
    + reflexivity.
Defined.

(** ** [fileisgood] *)

Lemma abs_events_rooted (p : string) :
  filepath.IsAbs p = true -> abs_events p = [].
Proof. unfold abs_events. now intros ->. Qed.

(** X4.  [fileisgood] never opens or reads a file: all it does is ask for
    the working directory, resolve symbolic links and print.  The empty
    path is rejected before any of that, and for an absolute path the
    working directory is not asked for. *)
Theorem fileisgood_only_resolves env p :
  (forall e, In e (good_events env p) ->
             e = SysGetwd \/ (exists q, e = SysEvalSymlinks q)
             \/ exists m, e = Log (Println m))
  /\ (p = "" -> isgood env p = false /\ good_events env p = [])
  /\ (filepath.IsAbs p = true -> ~ In SysGetwd (good_events env p)).
Proof.
  split; [intros e; apply good_events_kind|]. split.
  - intros ->. split; reflexivity.
  - intros Hp. run. rewrite Hp.
    destruct (p =? ""); cbn; [tauto|].
    destruct (EvalSymlinks env p); cbn; intuition discriminate.
Qed.

(** X5.  When the path is relative and the working directory cannot be
    had, [fileisgood] prints the error and answers false without
    resolving anything. *)
Theorem fileisgood_without_getwd env p msg :
  p <> "" ->
  filepath.IsAbs p = false ->
  Getwd env = Err msg ->
  isgood env p = false
  /\ good_events env p = [SysGetwd; Log (Println msg)].
Proof.
  intros Hp%String.eqb_neq Ha Hwd. run.
  unfold filepath.Abs. rewrite Hp, Ha, Hwd. cbn. split; reflexivity.
Qed.

Lemma fileisgood_without_getwd_witness :
  let env := mkEnv "index.md" "1" (Err "getwd: no such file or directory")
                   Sample.Open Sample.EvalSymlinks Sample.ReadFile
                   Sample.DetectContentType Sample.MarkdownCommon
                   Sample.ServeFile in
  isgood env "doc.md" = false
  /\ good_events env "doc.md"
     = [SysGetwd; Log (Println "getwd: no such file or directory")].
Proof.
  intros env.
  apply (fileisgood_without_getwd env "doc.md"
           "getwd: no such file or directory").
  - discriminate.
  - reflexivity.
  - reflexivity.
Defined.

(** ** [ServeHTTP] *)

(** X6.  The handler panics exactly on a GET request with an empty URL
    path, at the slice expression of line 167: by then the two headers
    are in the header map, and nothing has been written, logged or asked
    of the file system. *)
Theorem handler_panics_iff env s r :
  (panicked (serve env s r) = true <-> Method r = "GET" /\ Path r = "")
  /\ (panicked (serve env s r) = true ->
      response env s r = mkResponse own_headers None ""
      /\ events env s r = []).
Proof.
  run_handler.
  destruct (Path r) as [|c t] eqn:HP.
  - change (strings.Contains "" "../") with false.
    destruct (Method r =? "GET") eqn:Hm; cbv beta iota delta [negb].
    + apply String.eqb_eq in Hm. repeat split; auto.
    + apply String.eqb_neq in Hm.
      split; [split; [discriminate | tauto] | discriminate].
  - set (p0 := (RootString s ++ _)%string) in *.
    split_run; tidy.
    all: split; [split; [discriminate | intros [_ H]; discriminate H]
                | discriminate].
Qed.

(** What the handler answers once the resolved path has passed every
    check and has been read (lines 246-273). *)
Lemma served_response env s r p b :
  Method r = "GET" ->
  strings.Contains (Path r) "../" = false ->
  resolved env s r = Some p ->
  Open env p = Ok tt ->
  isgood env p = true ->
  strings.HasPrefix p (RootString s) = true ->
  ReadFile env p = Ok b ->
  response env s r
  = if strings.HasSuffix p ".html"
       || strings.HasPrefix (DetectContentType env b) "text/html"
    then Write b (mkResponse
                    (own_headers ++ [("Content-Type", "text/html")]) None "")
    else if strings.HasSuffix p ".md"
            && strings.HasPrefix (DetectContentType env b) "text/plain"
         then Write (if strings.Contains (RawQuery r) "raw" then b
                     else MarkdownCommon env b)
                    (mkResponse own_headers None "")
         else ServeFile env (mkResponse own_headers None "") r p.
Proof.
  intros Hm%String.eqb_eq Hc Hres Hopen Hgood Hroot Hread.
  resolve_in Hres; try congruence.
  all: run_handler; rewrite HP; fold p0; split_run; tidy.
  all: reflexivity.
Qed.

(** X7.  Raw HTML comes first: a file that ends in [.html], or whose bytes
    sniff as [text/html] whatever its name, is sent as it is with
    [Content-Type: text/html].  A markdown file that starts like an HTML
    page is therefore never rendered, with or without [raw]. *)
Theorem raw_html_takes_precedence env s r p b :
  Method r = "GET" ->
  strings.Contains (Path r) "../" = false ->
  resolved env s r = Some p ->
  Open env p = Ok tt ->
  isgood env p = true ->
  strings.HasPrefix p (RootString s) = true ->
  ReadFile env p = Ok b ->
  strings.HasSuffix p ".html" = true
  \/ strings.HasPrefix (DetectContentType env b) "text/html" = true ->
  Body (response env s r) = b
  /\ Status (response env s r) = Some 200
  /\ Header (response env s r)
     = (own_headers ++ [("Content-Type", "text/html")])%list.
Proof.
  intros Hm Hc Hres Hopen Hgood Hroot Hread Hhtml.
  rewrite (served_response env s r p b) by assumption.
  apply orb_true_iff in Hhtml. rewrite Hhtml. repeat split.
Qed.

(** X8.  Everything else goes to [http.ServeFile]: a readable file that is
    neither HTML nor plain-text markdown is handed over, after a first
    read for sniffing, with the handler's two headers and no
    [Content-Type]. *)
Theorem other_files_delegated env s r p b :
  Method r = "GET" ->
  strings.Contains (Path r) "../" = false ->
  resolved env s r = Some p ->
  Open env p = Ok tt ->
  isgood env p = true ->
  strings.HasPrefix p (RootString s) = true ->
  ReadFile env p = Ok b ->
  strings.HasSuffix p ".html" = false ->
  strings.HasPrefix (DetectContentType env b) "text/html" = false ->
  strings.HasSuffix p ".md" = false
  \/ strings.HasPrefix (DetectContentType env b) "text/plain" = false ->
  response env s r = ServeFile env (mkResponse own_headers None "") r p
  /\ In (SysReadFile p) (events env s r)
  /\ In (SysServeFile p) (events env s r).
Proof.
  intros Hm Hc Hres Hopen Hgood Hroot Hread Hh Hs Hmd.
  split.
  - rewrite (served_response env s r p b) by assumption.
    rewrite Hh, Hs. apply andb_false_iff in Hmd. now rewrite Hmd.
  - apply String.eqb_eq in Hm. apply andb_false_iff in Hmd.
    resolve_in Hres; try congruence.
    all: run_handler; rewrite HP; fold p0; split_run; tidy.
    all: try (cbn in Hmd; discriminate Hmd).
    all: split; find_in.
Qed.

(** X9.  Past the two guards every rejection is the same response, byte
    for byte and header for header: a path that cannot be made absolute,
    a file that cannot be opened (missing or not), a symbolic link, a path
    outside the root and a file that cannot be read (a directory, say) all
    get [http.NotFound] on top of the handler's two headers. *)
Theorem rejections_identical env s r :
  Method r = "GET" ->
  strings.Contains (Path r) "../" = false ->
  Path r <> "" ->
  resolved env s r = None
  \/ (exists p, resolved env s r = Some p
                /\ ((exists e, Open env p = Err e)
                    \/ isgood env p = false
                    \/ strings.HasPrefix p (RootString s) = false
                    \/ exists e, ReadFile env p = Err e)) ->
  response env s r = NotFound (mkResponse own_headers None "").
Proof.
  intros Hm%String.eqb_eq Hc Hne H.
  unfold resolved, requested, substituted in H.
  run_handler.
  destruct (Path r) as [|c t] eqn:HP; [contradiction|].
  set (p0 := (RootString s ++ _)%string) in *.
  split_run; tidy.
  all: try reflexivity.
  all: exfalso;
    destruct H as [H|(p & Hp & [[e H]|[H|[H|[e H]]]])];
    tidy; congruence.
Qed.

(** X10.  The line that closes a request in the log is deferred at line
    185: it is the last event of every run that gets that far, and a
    request turned away by one of the two guards leaves a single log line
    and no closing line. *)
Theorem closing_line env s r :
  (Method r = "GET" ->
   strings.Contains (Path r) "../" = false ->
   Path r <> "" ->
   last (events env s r) SysGetwd = Log (LogClosed (rfid env)))
  /\ (Method r <> "GET" \/ strings.Contains (Path r) "../" = true ->
      exists l, events env s r = [Log l]
                /\ forall id, l <> LogClosed id).
Proof.
  split.
  - intros Hm%String.eqb_eq Hc Hne.
    run_handler. rewrite Hm, Hc.
    destruct (Path r) as [|c t] eqn:HP; [contradiction|].
    set (p0 := (RootString s ++ _)%string) in *.
    split_run; cbn [resp trace].
    all: now rewrite last_last.
  - intros H. run_handler.
    destruct (Method r =? "GET") eqn:Hm; cbv beta iota delta [negb].
    + destruct H as [H|H]; [now apply String.eqb_eq in Hm|].
      rewrite H. eexists. split; [reflexivity | discriminate].
    + eexists. split; [reflexivity | discriminate].
Qed.

(** X11.  The response depends on the request only through the file name
    of lines 166-179 and the query string (and through what
    [http.ServeFile] makes of the request): two GET requests past the
    guard that name the same file and carry the same query get the same
    response. *)
Theorem same_file_same_response env s r1 r2 :
  Method r1 = "GET" -> Method r2 = "GET" ->
  strings.Contains (Path r1) "../" = false ->
  strings.Contains (Path r2) "../" = false ->
  requested env s r1 = requested env s r2 ->
  RawQuery r1 = RawQuery r2 ->
  (forall w name, ServeFile env w r1 name = ServeFile env w r2 name) ->
  response env s r1 = response env s r2.
Proof.
  intros Hm1%String.eqb_eq Hm2%String.eqb_eq Hc1 Hc2 Hreq Hq Hserve.
  unfold requested in Hreq. run_handler.
  rewrite Hm1, Hm2, Hc1, Hc2, <- Hq.
  destruct (Path r1) as [|c1 t1]; destruct (Path r2) as [|c2 t2];
    try discriminate Hreq; [reflexivity|].
  injection Hreq as Hreq.
  set (p1 := (RootString s ++ _)%string) in *.
  set (p2 := (RootString s ++ _)%string) in Hreq |- *.
  clearbody p1 p2. subst p2.
  split_run; tidy.
  all: first [reflexivity | apply Hserve].
Qed.

Lemma prefix_dotdot_slash (a : ascii) (y : string) :
  String.prefix "../" (String a (y ++ "/"))
  = String.prefix "../" (String a (y ++ "/index.md")).
Proof.
  destruct y as [|b [|c y]]; cbn [String.prefix append].
  - destruct (ascii_dec "." a); reflexivity.
  - destruct (ascii_dec "." a), (ascii_dec "." b); reflexivity.
  - destruct (ascii_dec "." a), (ascii_dec "." b), (ascii_dec "/" c);
      try reflexivity.
    now destruct y.
Qed.

(** The guard does not tell a directory from its [index.md]. *)
Lemma Contains_dotdot_index (x : string) :
  strings.Contains (x ++ "/") "../"
  = strings.Contains (x ++ "/index.md") "../".
Proof.
  induction x as [|a x IH]; [reflexivity|].
  cbn [append strings.Contains]. now rewrite IH, prefix_dotdot_slash.
Qed.

Lemma requested_directory_index env s r1 r2 c t :
  Path r1 = String c (t ++ "/") ->
  Path r2 = String c (t ++ "/index.md") ->
  requested env s r1 = requested env s r2.
Proof.
  intros H1 H2. unfold requested. rewrite H1, H2.
  assert ((t ++ "/" =? "") = false) as -> by now destruct t.
  assert ((t ++ "/index.md" =? "") = false) as -> by now destruct t.
  rewrite (proj2 (HasSuffix_spec (t ++ "/") "/")) by now exists t.
  destruct (strings.HasSuffix (t ++ "/index.md") "/") eqn:E.
  - apply HasSuffix_last_byte in E; [|discriminate].
    rewrite last_byte_append in E by discriminate. discriminate E.
  - now rewrite append_assoc.
Qed.

(** X12.  A request for a directory is a request for its [index.md]: GET
    [/dir/] and GET [/dir/index.md] with the same query are let through or
    turned away together by the guard, and get the same response. *)
Theorem directory_same_as_index_md env s r1 r2 c t :
  Method r1 = "GET" -> Method r2 = "GET" ->
  Path r1 = String c (t ++ "/") ->
  Path r2 = String c (t ++ "/index.md") ->
  RawQuery r1 = RawQuery r2 ->
  (forall w name, ServeFile env w r1 name = ServeFile env w r2 name) ->
  strings.Contains (Path r1) "../" = strings.Contains (Path r2) "../"
  /\ response env s r1 = response env s r2.
Proof.
  intros Hm1%String.eqb_eq Hm2%String.eqb_eq H1 H2 Hq Hserve.
  assert (strings.Contains (Path r1) "../"
          = strings.Contains (Path r2) "../") as Hc.
  { rewrite H1, H2.
    exact (Contains_dotdot_index (String c t)). }
  split; [exact Hc|].
  pose proof (requested_directory_index env s r1 r2 c t H1 H2) as Hreq.
  unfold requested in Hreq. run_handler.
  rewrite Hm1, Hm2, <- Hc, <- Hq.
  destruct (strings.Contains (Path r1) "../"); [reflexivity|].
  destruct (Path r1) as [|c1 t1]; destruct (Path r2) as [|c2 t2];
    try discriminate Hreq; try discriminate H1.
  injection Hreq as Hreq.
  set (p1 := (RootString s ++ _)%string) in *.
  set (p2 := (RootString s ++ _)%string) in Hreq |- *.
  clearbody p1 p2. subst p2.
  split_run; tidy.
  all: first [reflexivity | apply Hserve].
Qed.

Lemma IsAbs_trymd (a : string) :
  filepath.IsAbs a = true ->
  strings.HasSuffix a ".html" = true ->
  filepath.IsAbs (strings.TrimSuffix a ".html" ++ ".md") = true.
Proof.
  intros Ha [b ->]%HasSuffix_spec. rewrite TrimSuffix_append.
  destruct b as [|c b]; [discriminate Ha|].
  apply HasPrefix_spec in Ha as [u Hu]. cbn in Hu. injection Hu as -> _.
  apply HasPrefix_spec. now eexists.
Qed.

Lemma IsAbs_substituted env (a : string) :
  filepath.IsAbs a = true -> filepath.IsAbs (substituted env a) = true.
Proof.
  intros Ha. unfold substituted.
  destruct (strings.HasSuffix a ".html") eqn:E; [|exact Ha].
  destruct (Open env _); [|exact Ha]. now apply IsAbs_trymd.
Qed.

Lemma good_events_rooted env (p : string) :
  filepath.IsAbs p = true -> ~ In SysGetwd (good_events env p).
Proof.
  intros Hp. run. rewrite Hp.
  destruct (p =? ""); cbn; [tauto|].
  destruct (EvalSymlinks env p); cbn; intuition discriminate.
Qed.

Lemma good_events_resolves env (p : string) :
  filepath.IsAbs p = true -> In (SysEvalSymlinks p) (good_events env p).
Proof.
  intros Hp. run. rewrite Hp.
  pose proof (IsAbs_nonempty p Hp) as Hn. apply String.eqb_neq in Hn.
  rewrite Hn. cbn.
  destruct (EvalSymlinks env p); cbn; auto.
Qed.

(** The working directory is not among the events of a run. *)
Ltac no_getwd H :=
  lazymatch type of H with
  | In _ (_ ++ _)%list =>
      apply in_app_or in H; destruct H as [H|H]; no_getwd H
  | In _ (_ :: _) => destruct H as [H|H]; [discriminate H | no_getwd H]
  | In _ [] => destruct H
  | In _ (good_events _ _) =>
      apply good_events_rooted in H; [exact H | auto]
  end.

(** X13.  Under an absolute root, as [prepareDirectory] makes it, the
    handler never asks for the working directory and never fails to make
    the path absolute: every GET request past the guard with a non-empty
    path has a resolved path, and it is absolute. *)
Theorem absolute_root_needs_no_getwd env s r :
  filepath.IsAbs (RootString s) = true ->
  ~ In SysGetwd (events env s r)
  /\ (forall id err, ~ In (Log (LogAbsError id err)) (events env s r))
  /\ (Method r = "GET" ->
      strings.Contains (Path r) "../" = false ->
      Path r <> "" ->
      exists p, resolved env s r = Some p /\ filepath.IsAbs p = true).
Proof.
  intros Hroot. split; [|split].
  3: { intros _ _ Hne. unfold resolved, requested.
       destruct (Path r) as [|c t]; [contradiction|].
       set (p0 := (RootString s ++ _)%string).
       assert (filepath.IsAbs p0 = true) as Hp0 by now apply IsAbs_append.
       unfold filepath.Abs. rewrite Hp0. eexists. split; [reflexivity|].
       now apply IsAbs_substituted, IsAbs_Clean. }
  all: run_handler.
  all: destruct (Path r) as [|c t] eqn:HP;
    [ split_run; tidy;
      first [intros id err H; in_trace H | intros H; in_trace H] | ].
  all: set (p0 := (RootString s ++ _)%string) in *.
  all: assert (filepath.IsAbs p0 = true) as Hp0 by now apply IsAbs_append.
  all: split_run; tidy.
  all: try rewrite (abs_events_rooted p0 Hp0).
  all: try match goal with
           | E : filepath.Abs _ _ = Err _ |- _ =>
               unfold filepath.Abs in E; rewrite Hp0 in E; discriminate E
           end.
  all: try match goal with
           | E : filepath.Abs _ _ = Ok ?a |- _ =>
               let Ha := fresh "Ha" in
               assert (filepath.IsAbs a = true) as Ha
                 by (eapply IsAbs_Abs; [left; exact Hp0 | exact E]);
               let Ht := fresh "Ht" in
               pose proof (IsAbs_trymd a Ha) as Ht
           end.
  all: first [intros id err H; in_trace H | intros H; no_getwd H].
Qed.

(** X14.  Left to itself the handler answers 200 or 404 and nothing else:
    a run that neither panics nor hands over to [http.ServeFile] writes
    one of these two statuses. *)
Theorem status_200_or_404 env s r :
  (forall p, ~ In (SysServeFile p) (events env s r)) ->
  panicked (serve env s r) = false ->
  Status (response env s r) = Some 200
  \/ Status (response env s r) = Some 404.
Proof.
  run_handler.
  destruct (Path r) as [|c t] eqn:HP.
  all: try set (p0 := (RootString s ++ _)%string) in *.
  all: split_run; tidy.
  all: intros Hns Hp; try discriminate Hp.
  all: lazymatch goal with
       | |- Status (NotFound _) = _ \/ _ => right; reflexivity
       | |- Status (Write _ _) = _ \/ _ => left; reflexivity
       | _ => exfalso; eapply Hns; find_in
       end.
Qed.

(** An event of the trace of a finished run, with the call of
    [fileisgood] on an absolute path. *)
Ltac find_event :=
  lazymatch goal with
  | |- In _ (good_events _ _) => apply good_events_resolves; assumption
  | |- In _ (_ ++ _)%list =>
      apply in_or_app; first [right; find_event | left; find_event]
  | |- In _ (_ :: _) => first [left; reflexivity | right; find_event]
  end.

(** X15.  The root-prefix check is the last of the checks: whatever the
    resolved path of a GET request is, inside the root or not, the
    handler opens it, and when that succeeds resolves its symbolic links,
    before the prefix is looked at. *)
Theorem checked_after_opening env s r p :
  Method r = "GET" ->
  strings.Contains (Path r) "../" = false ->
  resolved env s r = Some p ->
  In (SysOpen p) (events env s r)
  /\ (Open env p = Ok tt ->
      filepath.IsAbs p = true ->
      In (SysEvalSymlinks p) (events env s r)).
Proof.
  intros Hm%String.eqb_eq Hc Hres.
  split; [now apply resolved_opened; [apply String.eqb_eq| |]|].
  intros Hopen Habs.
  resolve_in Hres; try congruence.
  all: run_handler; rewrite HP; fold p0; split_run; tidy.
  all: find_event.
Qed.

(** X16.  Every not-found response of the handler has its reason in the
    log: a rejection line is logged only together with [http.NotFound],
    and a run that ends in status 404 without [http.ServeFile] having
    been called has logged one. *)
Theorem rejections_are_logged env s r :
  (forall l, In (Log l) (events env s r) ->
             rejection l = true ->
             exists h, response env s r = NotFound (mkResponse h None ""))
  /\ ((forall p, ~ In (SysServeFile p) (events env s r)) ->
      Status (response env s r) = Some 404 ->
      exists l, In (Log l) (events env s r) /\ rejection l = true).
Proof.
  run_handler.
  destruct (Path r) as [|c t] eqn:HP.
  all: try set (p0 := (RootString s ++ _)%string) in *.
  all: split_run; tidy.
  all: split;
    [ intros l Hl Hrej; in_trace Hl; injection Hl as Hl; subst l;
      first [discriminate Hrej | eexists; reflexivity]
    | intros Hns Hst;
      first
        [ discriminate Hst
        | exfalso; eapply Hns; find_in
        | refine (ex_intro _ (LogBadMethod _ _ _ _) (conj _ eq_refl)); find_in
        | refine (ex_intro _ (LogBadPath _ _ _ _) (conj _ eq_refl)); find_in
        | refine (ex_intro _ (LogAbsError _ _) (conj _ eq_refl)); find_in
        | refine (ex_intro _ (Log404 _ _) (conj _ eq_refl)); find_in
        | refine (ex_intro _ (LogOpenError _ _ _) (conj _ eq_refl)); find_in
        | refine (ex_intro _ (LogSymlink _ _) (conj _ eq_refl)); find_in
        | refine (ex_intro _ (LogBadPrefix _ _ _) (conj _ eq_refl)); find_in
        | refine (ex_intro _ (LogReadError _ _) (conj _ eq_refl)); find_in ] ].
Qed.


(** ** The further properties on the sample site *)

Lemma raw_html_takes_precedence_witness :
  let r := Sample.request "GET" "/page.html" "" in
  Body (response locked_env Sample.srv r) = "<html>old</html>"
  /\ Status (response locked_env Sample.srv r) = Some 200
  /\ Header (response locked_env Sample.srv r)
     = [("Server", "markdownd/0.0.6"); ("X-Frame-Options", "DENY");
        ("Content-Type", "text/html")].
Proof.
  intros r.
  apply (raw_html_takes_precedence locked_env Sample.srv r
           "/srv/www/page.html" "<html>old</html>").
  - reflexivity.
  - reflexivity.
  - reflexivity.
  - reflexivity.
  - reflexivity.
  - reflexivity.
  - reflexivity.
  - left. reflexivity.
Defined.

Lemma other_files_delegated_witness :
  let env := Sample.env "index.md" in
  let r := Sample.request "GET" "/style.css" "" in
  response env Sample.srv r
  = ServeFile env (mkResponse own_headers None "") r "/srv/www/style.css"
  /\ In (SysReadFile "/srv/www/style.css") (events env Sample.srv r)
  /\ In (SysServeFile "/srv/www/style.css") (events env Sample.srv r).
Proof.
  intros env r.
  apply (other_files_delegated env Sample.srv r "/srv/www/style.css"
           "body { margin: 0 }").
  - reflexivity.
  - reflexivity.
  - reflexivity.
  - reflexivity.
  - reflexivity.
  - reflexivity.
  - reflexivity.
  - reflexivity.
  - reflexivity.
  - left. reflexivity.
Defined.

Lemma rejections_identical_witness :
  let env := Sample.env "index.md" in
  response env Sample.srv (Sample.request "GET" "/docs" "")
  = NotFound (mkResponse own_headers None "")
  /\ response env Sample.srv (Sample.request "GET" "/out/passwd" "")
     = NotFound (mkResponse own_headers None "").
Proof.
  intros env. split.
  - apply (rejections_identical env Sample.srv
             (Sample.request "GET" "/docs" "")).
    + reflexivity.
    + reflexivity.
    + discriminate.
    + right. exists "/srv/www/docs". split; [reflexivity|].
      right. right. right. eexists. reflexivity.
  - apply (rejections_identical env Sample.srv
             (Sample.request "GET" "/out/passwd" "")).
    + reflexivity.
    + reflexivity.
    + discriminate.
    + right. exists "/srv/www/out/passwd". split; [reflexivity|].
      right. left. reflexivity.
Defined.

Lemma same_file_same_response_witness :
  let env := Sample.env "index.md" in
  response env Sample.srv (Sample.request "GET" "/style.css" "")
  = response env Sample.srv
      (mkRequest "GET" "/style.css" "" "198.51.100.9:40112" "Mozilla/5.0").
Proof.
  intros env.
  apply (same_file_same_response env Sample.srv).
  - reflexivity.
  - reflexivity.
  - reflexivity.
  - reflexivity.
  - reflexivity.
  - reflexivity.
  - intros w name. reflexivity.
Defined.

Lemma directory_same_as_index_md_witness :
  let env := Sample.env "index.md" in
  response env Sample.srv (Sample.request "GET" "/docs/" "")
  = response env Sample.srv (Sample.request "GET" "/docs/index.md" "").
Proof.
  intros env.
  apply (directory_same_as_index_md env Sample.srv
           (Sample.request "GET" "/docs/" "")
           (Sample.request "GET" "/docs/index.md" "") "/" "docs").
  - reflexivity.
  - reflexivity.
  - reflexivity.
  - reflexivity.
  - reflexivity.
  - intros w name. reflexivity.
Defined.

Lemma absolute_root_needs_no_getwd_witness :
  let env := Sample.env "index.md" in
  let r := Sample.request "GET" "/page.html" "" in
  ~ In SysGetwd (events env Sample.srv r)
  /\ exists p, resolved env Sample.srv r = Some p
               /\ filepath.IsAbs p = true.
Proof.
  intros env r.
  destruct (absolute_root_needs_no_getwd env Sample.srv r) as (H1 & _ & H3).
  - reflexivity.
  - split; [exact H1|]. apply H3; [reflexivity | reflexivity | discriminate].
Defined.

Lemma status_200_or_404_witness :
  let env := Sample.env "index.md" in
  let r := Sample.request "GET" "/doc.md" "" in
  Status (response env Sample.srv r) = Some 200
  \/ Status (response env Sample.srv r) = Some 404.
Proof.
  intros env r.
  apply (status_200_or_404 env Sample.srv r).
  - intros p H. vm_compute in H.
    repeat (destruct H as [H|H]; [discriminate H|]). exact H.
  - reflexivity.
Defined.

Lemma checked_after_opening_witness :
  let env := Sample.env "index.md" in
  let r := Sample.request "GET" "/.." "" in
  strings.HasPrefix "/srv" (RootString Sample.srv) = false
  /\ In (SysOpen "/srv") (events env Sample.srv r)
  /\ In (SysEvalSymlinks "/srv") (events env Sample.srv r).
Proof.
  intros env r. split; [reflexivity|].
  destruct (checked_after_opening env Sample.srv r "/srv") as [H1 H2].
  - reflexivity.
  - reflexivity.
  - reflexivity.
  - split; [exact H1|]. apply H2; reflexivity.
Defined.

